(** * Disbursement voucher endpoints of the central server

    A shallow embedding of
    [centralserver/routers/reports_routes/disbursement_voucher.py]:
    the three request handlers ([create_or_update_disbursement_voucher],
    [get_disbursement_voucher], [get_disbursement_vouchers_for_month]) are
    written in a small session monad that threads the database session
    (committed rows, rows of the open transaction, and a log of the
    operations issued against the voucher tables) and the raised exception. *)

From Stdlib Require Import ZArith Lia.
From stdpp Require Import base option list strings.

Open Scope Z_scope.

(** ** Python's [datetime] module, as far as the handlers use it *)

Inductive Exception :=
  | HTTPException (status_code : Z) (detail : string)
  | ValueError (msg : string)
  | OverflowError (msg : string)
  | InvalidRequestError (msg : string).

Module datetime.

Record date := mkdate { year : Z; month : Z; day : Z }.

Record time := mktime { hour : Z; minute : Z; second : Z; microsecond : Z }.

Record datetime := mkdatetime { dt_date : date; dt_time : time }.

Definition MINYEAR : Z := 1.
Definition MAXYEAR : Z := 9999.

Definition is_leap (y : Z) : bool :=
  (y mod 4 =? 0) && (negb (y mod 100 =? 0) || (y mod 400 =? 0)).

(** [_DAYS_IN_MONTH], with February corrected in leap years. *)
Definition days_in_month (y m : Z) : Z :=
  if (m =? 2) && is_leap y then 29
  else if m =? 2 then 28
  else if (m =? 4) || (m =? 6) || (m =? 9) || (m =? 11) then 30
  else 31.

Definition INT_MIN : Z := -2147483648.
Definition INT_MAX : Z := 2147483647.

(** The constructor takes its arguments as C ints: one that does not
    fit is refused with an [OverflowError] while the arguments are parsed
    (the wording of the message depends on the platform). *)
Definition as_c_int (v : Z) : option Exception :=
  if INT_MAX <? v then
    Some (OverflowError "signed integer is greater than maximum")
  else if v <? INT_MIN then
    Some (OverflowError "signed integer is less than minimum")
  else None.

(** [datetime.date(year, month, day)]: the arguments are parsed, in
    their order, and then the three range checks are made, in the
    constructor's order; each failed range check is a [ValueError]. *)
Definition new_date (y m d : Z) : Exception + date :=
  match as_c_int y, as_c_int m, as_c_int d with
  | Some e, _, _ => inl e
  | None, Some e, _ => inl e
  | None, None, Some e => inl e
  | None, None, None =>
      if negb ((MINYEAR <=? y) && (y <=? MAXYEAR)) then
        inl (ValueError "year is out of range")
      else if negb ((1 <=? m) && (m <=? 12)) then
        inl (ValueError "month must be in 1..12")
      else if negb ((1 <=? d) && (d <=? days_in_month y m)) then
        inl (ValueError "day is out of range for month")
      else inr (mkdate y m d)
  end.

(** [datetime.time()] with no argument: midnight. *)
Definition new_time : time := mktime 0 0 0 0.

(** [datetime.datetime.combine(date, time)]. *)
Definition combine (d : date) (t : time) : datetime := mkdatetime d t.

#[global] Instance date_eq_dec : EqDecision date.
Proof. solve_decision. Defined.

#[global] Instance time_eq_dec : EqDecision time.
Proof. solve_decision. Defined.

#[global] Instance datetime_eq_dec : EqDecision datetime.
Proof. solve_decision. Defined.

End datetime.

(** ** What the module imports from the rest of the server

    The ORM classes, the [ReportStatus] enumeration and the authentication
    helpers live in other files of the server.  Their column types and
    defaults are taken as an interface: [float] is the type of the numeric
    columns (the handlers only carry these values through), [ReportStatus]
    the status enumeration, [default_status] the column default a freshly
    constructed voucher gets, and [User] what [get_user] returns. *)

Class Models := {
  float : Type;
  float_eq_dec :: EqDecision float;
  ReportStatus : Type;
  default_status : ReportStatus;
  User : Type;
}.

(** HTTP status codes used below ([fastapi.status]). *)
Definition HTTP_404_NOT_FOUND : Z := 404.
Definition HTTP_422_UNPROCESSABLE_ENTITY : Z := 422.
Definition HTTP_500_INTERNAL_SERVER_ERROR : Z := 500.

Section Model.

Context `{Models}.

(** *** Pydantic request and response models *)

Record DisbursementVoucherEntryData := {
  ed_receipt : option string;
  ed_particulars : string;
  ed_unit : string;
  ed_quantity : float;
  ed_unitPrice : float;
}.

Record DisbursementVoucherAccountingEntryData := {
  ad_uacs_code : string;
  ad_accountTitle : string;
  ad_debit : float;
  ad_credit : float;
}.

Record DisbursementVoucherCreateRequest := {
  req_schoolId : Z;
  req_date : datetime.date;
  req_modeOfPayment : string;
  req_payee : string;
  req_tinOrEmployeeNo : option string;
  req_responsibilityCenter : option string;
  req_orsbursNo : option string;
  req_address : option string;
  req_linkedLiquidationCategory : option string;
  req_certifiedCashAvailable : bool;
  req_certifiedSupportingDocsComplete : bool;
  req_certifiedSubjectToDebitAccount : bool;
  req_approvedBy : option string;
  req_checkNo : option string;
  req_bankNameAndAccountNo : option string;
  req_adaNo : option string;
  req_jevNo : option string;
  req_entries : list DisbursementVoucherEntryData;
  req_accountingEntries : list DisbursementVoucherAccountingEntryData;
  req_certifiedBy : list string;
}.

Record DisbursementVoucherResponse := {
  resp_parent : datetime.date;
  resp_date : datetime.date;
  resp_schoolId : Z;
  resp_modeOfPayment : string;
  resp_payee : string;
  resp_tinOrEmployeeNo : option string;
  resp_responsibilityCenter : option string;
  resp_orsbursNo : option string;
  resp_address : option string;
  resp_linkedLiquidationCategory : option string;
  resp_reportStatus : ReportStatus;
  resp_certifiedCashAvailable : bool;
  resp_certifiedSupportingDocsComplete : bool;
  resp_certifiedSubjectToDebitAccount : bool;
  resp_approvedBy : option string;
  resp_checkNo : option string;
  resp_bankNameAndAccountNo : option string;
  resp_adaNo : option string;
  resp_jevNo : option string;
  resp_entries : list DisbursementVoucherEntryData;
  resp_accountingEntries : list DisbursementVoucherAccountingEntryData;
  resp_certifiedBy : list string;
}.

(** *** Rows of the four tables *)

Record DisbursementVoucher := {
  dv_parent : datetime.date;
  dv_date : datetime.date;
  dv_schoolId : Z;
  dv_modeOfPayment : string;
  dv_payee : string;
  dv_tinOrEmployeeNo : option string;
  dv_responsibilityCenter : option string;
  dv_orsbursNo : option string;
  dv_address : option string;
  dv_linkedLiquidationCategory : option string;
  dv_reportStatus : ReportStatus;
  dv_certifiedCashAvailable : bool;
  dv_certifiedSupportingDocsComplete : bool;
  dv_certifiedSubjectToDebitAccount : bool;
  dv_approvedBy : option string;
  dv_checkNo : option string;
  dv_bankNameAndAccountNo : option string;
  dv_adaNo : option string;
  dv_jevNo : option string;
}.

Record DisbursementVoucherEntry := {
  dve_parent : datetime.date;
  dve_date : datetime.datetime;
  dve_schoolId : Z;
  dve_receipt : option string;
  dve_particulars : string;
  dve_unit : string;
  dve_quantity : float;
  dve_unitPrice : float;
}.

Record DisbursementVoucherAccountingEntry := {
  dva_parent : datetime.date;
  dva_date : datetime.datetime;
  dva_schoolId : Z;
  dva_uacs_code : string;
  dva_accountTitle : string;
  dva_debit : float;
  dva_credit : float;
}.

Record DisbursementVoucherCertifiedBy := {
  dvc_parent : datetime.date;
  dvc_date : datetime.date;
  dvc_schoolId : Z;
  dvc_user : string;
}.

#[global] Instance entry_eq_dec : EqDecision DisbursementVoucherEntry.
Proof. solve_decision. Defined.

#[global] Instance accounting_entry_eq_dec :
  EqDecision DisbursementVoucherAccountingEntry.
Proof. solve_decision. Defined.

#[global] Instance certified_by_eq_dec :
  EqDecision DisbursementVoucherCertifiedBy.
Proof. solve_decision. Defined.

(** *** The database and the session bound to one request *)

Record Database := {
  vouchers : list DisbursementVoucher;
  entries : list DisbursementVoucherEntry;
  accounting_entries : list DisbursementVoucherAccountingEntry;
  certified_by : list DisbursementVoucherCertifiedBy;
}.

(** A [select(DisbursementVoucher)] statement is the conjunction of its
    [where] criteria. *)
Inductive Criterion :=
  | parent_eq (d : datetime.date)
  | date_eq (d : datetime.date)
  | schoolId_eq (n : Z)
  | linkedLiquidationCategory_eq (c : string).

Definition Select := list Criterion.

Inductive ChildRow :=
  | EntryRow (e : DisbursementVoucherEntry)
  | AccountingEntryRow (e : DisbursementVoucherAccountingEntry)
  | CertifiedByRow (c : DisbursementVoucherCertifiedBy).

Inductive Relationship := rel_entries | rel_accounting_entries | rel_certified_by.

(** What a handler asks of the session about the voucher tables, in the
    order it asks. *)
Inductive Event :=
  | Exec (stmt : Select)
  | LazyLoad (r : Relationship) (owner : DisbursementVoucher)
  | Refresh (i : nat)
  | AddVoucher (v : DisbursementVoucher)
  | SetAttrs (i : nat)
  | Add (r : ChildRow)
  | Delete (r : ChildRow)
  | Commit.

Record Session := {
  committed : Database;
  working : Database;
  trace : list Event;
}.

(** [get_db_session]: a session opened on the committed state. *)
Definition open_session (db : Database) : Session :=
  {| committed := db; working := db; trace := [] |}.

(** The authentication helpers of [centralserver.internals.auth_handler]:
    both are handed the session and either return or raise. *)
Class Auth := {
  get_user : Database → string → Exception + User;
  verify_user_permission : Database → User → string → Exception + unit;
}.

Context `{Auth}.

(** *** The session monad *)

Definition Req (A : Type) : Type := Session → (Exception + A) * Session.

#[global] Instance Req_ret : MRet Req := λ A a s, (inr a, s).

#[global] Instance Req_bind : MBind Req := λ A B k m s,
  match m s with
  | (inr a, s') => k a s'
  | (inl e, s') => (inl e, s')
  end.

Definition raise {A} (e : Exception) : Req A := λ s, (inl e, s).

(** A call that returns or raises without touching the session. *)
Definition call {A} (r : Exception + A) : Req A := λ s, (r, s).

Definition log (e : Event) : Req unit := λ s,
  (inr tt, {| committed := committed s; working := working s;
              trace := trace s ++ [e] |}).

Definition modify (f : Database → Database) : Req unit := λ s,
  (inr tt, {| committed := committed s; working := f (working s);
              trace := trace s |}).

Definition current : Req Database := λ s, (inr (working s), s).

(** [for x in xs: body(x)] *)
Fixpoint for_ {A} (xs : list A) (body : A → Req unit) : Req unit :=
  match xs with
  | [] => mret tt
  | x :: xs' => body x ;; for_ xs' body
  end.

(** What a request leaves behind: the handler's result, the committed
    database (an open transaction is dropped with the session), and the
    operations it issued. *)
Definition handle {A} (m : Req A) (db : Database)
    : (Exception + A) * Database * list Event :=
  let '(r, s) := m (open_session db) in (r, committed s, trace s).

(** *** Statements *)

Definition select_DisbursementVoucher : Select := [].

Definition where_ (stmt : Select) (criteria : list Criterion) : Select :=
  stmt ++ criteria.

(** A comparison with a NULL column is not true, so a voucher without a
    linked category matches no [linkedLiquidationCategory_eq]. *)
Definition holds (c : Criterion) (v : DisbursementVoucher) : bool :=
  match c with
  | parent_eq d => bool_decide (dv_parent v = d)
  | date_eq d => bool_decide (dv_date v = d)
  | schoolId_eq n => bool_decide (dv_schoolId v = n)
  | linkedLiquidationCategory_eq c =>
      bool_decide (dv_linkedLiquidationCategory v = Some c)
  end.

Definition matches (stmt : Select) (v : DisbursementVoucher) : bool :=
  forallb (λ c, holds c v) stmt.

(** [db.exec(stmt).first()]: the first matching row, with its position as
    the identity of the loaded object. *)
Definition exec_first (stmt : Select)
    : Req (option (nat * DisbursementVoucher)) :=
  log (Exec stmt) ;;
  db ← current;
  mret (list_find (λ v, matches stmt v = true) (vouchers db)).

(** [db.exec(stmt).all()] *)
Definition exec_all (stmt : Select) : Req (list DisbursementVoucher) :=
  log (Exec stmt) ;;
  db ← current;
  mret (filter (λ v, matches stmt v = true) (vouchers db)).

(** *** Relationships *)

(** Modelled from the spec: the ORM class that declares
    [DisbursementVoucher.entries] is not part of this file; the entries of
    a voucher are the rows tagged with its (parent, date, schoolId) key.
    An entry row carries a timestamp in [date], compared by its calendar
    date. *)
Definition entry_of (v : DisbursementVoucher) (e : DisbursementVoucherEntry)
    : Prop :=
  dve_parent e = dv_parent v ∧ datetime.dt_date (dve_date e) = dv_date v
  ∧ dve_schoolId e = dv_schoolId v.

(** Modelled from the spec: the declaration of
    [DisbursementVoucher.accounting_entries] is missing likewise; same
    key, same comparison of the timestamp. *)
Definition accounting_entry_of (v : DisbursementVoucher)
    (e : DisbursementVoucherAccountingEntry) : Prop :=
  dva_parent e = dv_parent v ∧ datetime.dt_date (dva_date e) = dv_date v
  ∧ dva_schoolId e = dv_schoolId v.

(** Modelled from the spec: the declaration of
    [DisbursementVoucher.certified_by] is missing likewise; a certifier
    row carries a plain date. *)
Definition certified_by_of (v : DisbursementVoucher)
    (c : DisbursementVoucherCertifiedBy) : Prop :=
  dvc_parent c = dv_parent v ∧ dvc_date c = dv_date v
  ∧ dvc_schoolId c = dv_schoolId v.

#[global] Instance entry_of_dec v e : Decision (entry_of v e).
Proof. unfold entry_of. apply _. Defined.

#[global] Instance accounting_entry_of_dec v e :
  Decision (accounting_entry_of v e).
Proof. unfold accounting_entry_of. apply _. Defined.

#[global] Instance certified_by_of_dec v c : Decision (certified_by_of v c).
Proof. unfold certified_by_of. apply _. Defined.

(** [voucher.entries] *)
Definition voucher_entries (v : DisbursementVoucher)
    : Req (list DisbursementVoucherEntry) :=
  log (LazyLoad rel_entries v) ;;
  db ← current;
  mret (filter (entry_of v) (entries db)).

(** [voucher.accounting_entries] *)
Definition voucher_accounting_entries (v : DisbursementVoucher)
    : Req (list DisbursementVoucherAccountingEntry) :=
  log (LazyLoad rel_accounting_entries v) ;;
  db ← current;
  mret (filter (accounting_entry_of v) (accounting_entries db)).

(** [voucher.certified_by] *)
Definition voucher_certified_by (v : DisbursementVoucher)
    : Req (list DisbursementVoucherCertifiedBy) :=
  log (LazyLoad rel_certified_by v) ;;
  db ← current;
  mret (filter (certified_by_of v) (certified_by db)).

(** *** Session operations *)

(** Deleting a loaded row removes that one row from its table. *)
Fixpoint remove_first {A} `{EqDecision A} (x : A) (l : list A) : list A :=
  match l with
  | [] => []
  | y :: l' => if decide (x = y) then l' else y :: remove_first x l'
  end.

Definition insert_row (r : ChildRow) (db : Database) : Database :=
  match r with
  | EntryRow e =>
      {| vouchers := vouchers db; entries := entries db ++ [e];
         accounting_entries := accounting_entries db;
         certified_by := certified_by db |}
  | AccountingEntryRow e =>
      {| vouchers := vouchers db; entries := entries db;
         accounting_entries := accounting_entries db ++ [e];
         certified_by := certified_by db |}
  | CertifiedByRow c =>
      {| vouchers := vouchers db; entries := entries db;
         accounting_entries := accounting_entries db;
         certified_by := certified_by db ++ [c] |}
  end.

Definition delete_row (r : ChildRow) (db : Database) : Database :=
  match r with
  | EntryRow e =>
      {| vouchers := vouchers db; entries := remove_first e (entries db);
         accounting_entries := accounting_entries db;
         certified_by := certified_by db |}
  | AccountingEntryRow e =>
      {| vouchers := vouchers db; entries := entries db;
         accounting_entries := remove_first e (accounting_entries db);
         certified_by := certified_by db |}
  | CertifiedByRow c =>
      {| vouchers := vouchers db; entries := entries db;
         accounting_entries := accounting_entries db;
         certified_by := remove_first c (certified_by db) |}
  end.

Definition with_vouchers (f : list DisbursementVoucher → list DisbursementVoucher)
    (db : Database) : Database :=
  {| vouchers := f (vouchers db); entries := entries db;
     accounting_entries := accounting_entries db;
     certified_by := certified_by db |}.

(** [db.add(row)] for a child row. *)
Definition db_add (r : ChildRow) : Req unit :=
  log (Add r) ;; modify (insert_row r).

(** [db.delete(row)] *)
Definition db_delete (r : ChildRow) : Req unit :=
  log (Delete r) ;; modify (delete_row r).

(** [db.add(voucher)] for a new voucher: the row goes to the end of the
    table; its position identifies the object from then on. *)
Definition db_add_voucher (v : DisbursementVoucher) : Req nat :=
  log (AddVoucher v) ;;
  db ← current;
  modify (with_vouchers (λ l, l ++ [v])) ;;
  mret (length (vouchers db)).

(** Attribute assignments on the voucher object held by the session. *)
Definition set_attrs (i : nat) (f : DisbursementVoucher → DisbursementVoucher)
    : Req unit :=
  log (SetAttrs i) ;; modify (with_vouchers (alter f i)).

(** [db.commit()] *)
Definition db_commit : Req unit := λ s,
  (inr tt, {| committed := working s; working := working s;
              trace := trace s ++ [Commit] |}).

(** [db.refresh(voucher)]: the row is read back; a row that is gone makes
    the session raise. *)
Definition db_refresh (i : nat) : Req DisbursementVoucher :=
  log (Refresh i) ;;
  db ← current;
  match vouchers db !! i with
  | Some v => mret v
  | None => raise (InvalidRequestError "Could not refresh instance")
  end.

Definition db_get_user (token : string) : Req User :=
  db ← current; call (get_user db token).

Definition db_verify_user_permission (user : User) (scope : string)
    : Req unit :=
  db ← current; call (verify_user_permission db user scope).

(** *** The handlers *)

(** [DisbursementVoucher(parent=..., date=..., schoolId=...)]: only the
    key is given; the status column takes its default and the other
    attributes, blank here, are all assigned before the commit. *)
Definition new_DisbursementVoucher (parent date : datetime.date)
    (schoolId : Z) : DisbursementVoucher :=
  {| dv_parent := parent; dv_date := date; dv_schoolId := schoolId;
     dv_modeOfPayment := ""; dv_payee := "";
     dv_tinOrEmployeeNo := None; dv_responsibilityCenter := None;
     dv_orsbursNo := None; dv_address := None;
     dv_linkedLiquidationCategory := None;
     dv_reportStatus := default_status;
     dv_certifiedCashAvailable := false;
     dv_certifiedSupportingDocsComplete := false;
     dv_certifiedSubjectToDebitAccount := false;
     dv_approvedBy := None; dv_checkNo := None;
     dv_bankNameAndAccountNo := None; dv_adaNo := None; dv_jevNo := None |}.

(** The block "Update voucher fields": fifteen assignments from the
    request; key and status are not among them. *)
Definition update_voucher_fields (request : DisbursementVoucherCreateRequest)
    (voucher : DisbursementVoucher) : DisbursementVoucher :=
  {| dv_parent := dv_parent voucher; dv_date := dv_date voucher;
     dv_schoolId := dv_schoolId voucher;
     dv_modeOfPayment := req_modeOfPayment request;
     dv_payee := req_payee request;
     dv_tinOrEmployeeNo := req_tinOrEmployeeNo request;
     dv_responsibilityCenter := req_responsibilityCenter request;
     dv_orsbursNo := req_orsbursNo request;
     dv_address := req_address request;
     dv_linkedLiquidationCategory := req_linkedLiquidationCategory request;
     dv_reportStatus := dv_reportStatus voucher;
     dv_certifiedCashAvailable := req_certifiedCashAvailable request;
     dv_certifiedSupportingDocsComplete :=
       req_certifiedSupportingDocsComplete request;
     dv_certifiedSubjectToDebitAccount :=
       req_certifiedSubjectToDebitAccount request;
     dv_approvedBy := req_approvedBy request;
     dv_checkNo := req_checkNo request;
     dv_bankNameAndAccountNo := req_bankNameAndAccountNo request;
     dv_adaNo := req_adaNo request; dv_jevNo := req_jevNo request |}.

Definition make_entry (parent_date voucher_date : datetime.date)
    (school_id : Z) (entry_data : DisbursementVoucherEntryData)
    : DisbursementVoucherEntry :=
  {| dve_parent := parent_date;
     dve_date := datetime.combine voucher_date datetime.new_time;
     dve_schoolId := school_id;
     dve_receipt := ed_receipt entry_data;
     dve_particulars := ed_particulars entry_data;
     dve_unit := ed_unit entry_data;
     dve_quantity := ed_quantity entry_data;
     dve_unitPrice := ed_unitPrice entry_data |}.

Definition make_accounting_entry (parent_date voucher_date : datetime.date)
    (school_id : Z) (acc_entry_data : DisbursementVoucherAccountingEntryData)
    : DisbursementVoucherAccountingEntry :=
  {| dva_parent := parent_date;
     dva_date := datetime.combine voucher_date datetime.new_time;
     dva_schoolId := school_id;
     dva_uacs_code := ad_uacs_code acc_entry_data;
     dva_accountTitle := ad_accountTitle acc_entry_data;
     dva_debit := ad_debit acc_entry_data;
     dva_credit := ad_credit acc_entry_data |}.

Definition make_certified_by (parent_date voucher_date : datetime.date)
    (school_id : Z) (certified_user : string)
    : DisbursementVoucherCertifiedBy :=
  {| dvc_parent := parent_date; dvc_date := voucher_date;
     dvc_schoolId := school_id; dvc_user := certified_user |}.

Definition entry_data_of (entry : DisbursementVoucherEntry)
    : DisbursementVoucherEntryData :=
  {| ed_receipt := dve_receipt entry;
     ed_particulars := dve_particulars entry;
     ed_unit := dve_unit entry;
     ed_quantity := dve_quantity entry;
     ed_unitPrice := dve_unitPrice entry |}.

Definition accounting_entry_data_of (entry : DisbursementVoucherAccountingEntry)
    : DisbursementVoucherAccountingEntryData :=
  {| ad_uacs_code := dva_uacs_code entry;
     ad_accountTitle := dva_accountTitle entry;
     ad_debit := dva_debit entry;
     ad_credit := dva_credit entry |}.

Definition make_response (voucher : DisbursementVoucher)
    (voucher_entries : list DisbursementVoucherEntry)
    (voucher_accounting_entries : list DisbursementVoucherAccountingEntry)
    (voucher_certified_by : list DisbursementVoucherCertifiedBy)
    : DisbursementVoucherResponse :=
  {| resp_parent := dv_parent voucher;
     resp_date := dv_date voucher;
     resp_schoolId := dv_schoolId voucher;
     resp_modeOfPayment := dv_modeOfPayment voucher;
     resp_payee := dv_payee voucher;
     resp_tinOrEmployeeNo := dv_tinOrEmployeeNo voucher;
     resp_responsibilityCenter := dv_responsibilityCenter voucher;
     resp_orsbursNo := dv_orsbursNo voucher;
     resp_address := dv_address voucher;
     resp_linkedLiquidationCategory := dv_linkedLiquidationCategory voucher;
     resp_reportStatus := dv_reportStatus voucher;
     resp_certifiedCashAvailable := dv_certifiedCashAvailable voucher;
     resp_certifiedSupportingDocsComplete :=
       dv_certifiedSupportingDocsComplete voucher;
     resp_certifiedSubjectToDebitAccount :=
       dv_certifiedSubjectToDebitAccount voucher;
     resp_approvedBy := dv_approvedBy voucher;
     resp_checkNo := dv_checkNo voucher;
     resp_bankNameAndAccountNo := dv_bankNameAndAccountNo voucher;
     resp_adaNo := dv_adaNo voucher;
     resp_jevNo := dv_jevNo voucher;
     resp_entries := entry_data_of <$> voucher_entries;
     resp_accountingEntries :=
       accounting_entry_data_of <$> voucher_accounting_entries;
     resp_certifiedBy := dvc_user <$> voucher_certified_by |}.

(** The block "Build response", the same in the three handlers: the
    voucher's attributes and its three relationships, loaded on access. *)
Definition build_response (voucher : DisbursementVoucher)
    : Req DisbursementVoucherResponse :=
  es ← voucher_entries voucher;
  aes ← voucher_accounting_entries voucher;
  cs ← voucher_certified_by voucher;
  mret (make_response voucher es aes cs).

(** The statement of the two single-voucher handlers. *)
Definition voucher_stmt (parent_date voucher_date : datetime.date)
    (school_id : Z) : Select :=
  where_ select_DisbursementVoucher
    [parent_eq parent_date; date_eq voucher_date; schoolId_eq school_id].

(** POST /{school_id}/{year}/{month}/{date}.  The [logger.debug] call
    between the permission check and the dates has no effect on the
    session or the result and is left out. *)
Definition create_or_update_disbursement_voucher
    (school_id year month date : Z)
    (request : DisbursementVoucherCreateRequest) (token : string)
    : Req DisbursementVoucherResponse :=
  user ← db_get_user token;
  db_verify_user_permission user "reports:local:write" ;;
  parent_date ← call (datetime.new_date year month 1);
  voucher_date ← call (datetime.new_date year month date);
  existing_voucher ← exec_first (voucher_stmt parent_date voucher_date school_id);
  voucher ←
    match existing_voucher with
    | Some (i, v) =>
        es ← voucher_entries v;
        for_ es (λ entry, db_delete (EntryRow entry)) ;;
        aes ← voucher_accounting_entries v;
        for_ aes (λ entry, db_delete (AccountingEntryRow entry)) ;;
        cs ← voucher_certified_by v;
        for_ cs (λ cert, db_delete (CertifiedByRow cert)) ;;
        mret i
    | None =>
        db_add_voucher (new_DisbursementVoucher parent_date voucher_date school_id)
    end;
  set_attrs voucher (update_voucher_fields request) ;;
  for_ (req_entries request) (λ entry_data,
    db_add (EntryRow (make_entry parent_date voucher_date school_id entry_data))) ;;
  for_ (req_accountingEntries request) (λ acc_entry_data,
    db_add (AccountingEntryRow
      (make_accounting_entry parent_date voucher_date school_id acc_entry_data))) ;;
  for_ (req_certifiedBy request) (λ certified_user,
    db_add (CertifiedByRow
      (make_certified_by parent_date voucher_date school_id certified_user))) ;;
  db_commit ;;
  voucher ← db_refresh voucher;
  build_response voucher.

(** GET /{school_id}/{year}/{month}/{date} *)
Definition get_disbursement_voucher (school_id year month date : Z)
    (token : string) : Req DisbursementVoucherResponse :=
  user ← db_get_user token;
  db_verify_user_permission user "reports:local:read" ;;
  parent_date ← call (datetime.new_date year month 1);
  voucher_date ← call (datetime.new_date year month date);
  voucher ← exec_first (voucher_stmt parent_date voucher_date school_id);
  match voucher with
  | None =>
      raise (HTTPException HTTP_404_NOT_FOUND "Disbursement voucher not found.")
  | Some (_, voucher) => build_response voucher
  end.

(** Python's truth value of an [Optional[str]]: [None] and the empty
    string are false. *)
Definition truthy (s : option string) : bool :=
  match s with
  | None => false
  | Some EmptyString => false
  | Some (String _ _) => true
  end.

(** GET /{school_id}/{year}/{month}?linked_category= *)
Definition get_disbursement_vouchers_for_month (school_id year month : Z)
    (token : string) (linked_category : option string)
    : Req (list DisbursementVoucherResponse) :=
  user ← db_get_user token;
  db_verify_user_permission user "reports:local:read" ;;
  parent_date ← call (datetime.new_date year month 1);
  let stmt :=
    where_ select_DisbursementVoucher
      [parent_eq parent_date; schoolId_eq school_id] in
  let stmt :=
    if truthy linked_category then
      where_ stmt [linkedLiquidationCategory_eq (default "" linked_category)]
    else stmt in
  vouchers ← exec_all stmt;
  mapM build_response vouchers.

(** *** Notions the properties are stated with *)

(** The caller behind [token] is resolved and holds [scope]: both helper
    calls return. *)
Definition authorized (db : Database) (token scope : string) : Prop :=
  ∃ user, get_user db token = inr user
          ∧ verify_user_permission db user scope = inr tt.

(** The response for [voucher] read off a database. *)
Definition response_of (db : Database) (voucher : DisbursementVoucher)
    : DisbursementVoucherResponse :=
  make_response voucher
    (filter (entry_of voucher) (entries db))
    (filter (accounting_entry_of voucher) (accounting_entries db))
    (filter (certified_by_of voucher) (certified_by db)).

(** Operations that only read. *)
Definition is_read (e : Event) : bool :=
  match e with
  | Exec _ | LazyLoad _ _ | Refresh _ => true
  | AddVoucher _ | SetAttrs _ | Add _ | Delete _ | Commit => false
  end.

(** The child rows handed to [db.add] during a request, in order. *)
Definition added_rows (tr : list Event) : list ChildRow :=
  omap (λ e, match e with Add r => Some r | _ => None end) tr.

(** The child rows handed to [db.delete] during a request, in order. *)
Definition deleted_rows (tr : list Event) : list ChildRow :=
  omap (λ e, match e with Delete r => Some r | _ => None end) tr.

(** The children of a voucher, over the three tables. *)
Definition children (db : Database) (v : DisbursementVoucher)
    : list ChildRow :=
  (EntryRow <$> filter (entry_of v) (entries db))
  ++ (AccountingEntryRow
        <$> filter (accounting_entry_of v) (accounting_entries db))
  ++ (CertifiedByRow <$> filter (certified_by_of v) (certified_by db)).

(** The (parent, date, schoolId) tag of a child row; for the two kinds
    with a timestamp, its calendar date. *)
Definition row_key (r : ChildRow) : datetime.date * datetime.date * Z :=
  match r with
  | EntryRow e => (dve_parent e, datetime.dt_date (dve_date e), dve_schoolId e)
  | AccountingEntryRow e =>
      (dva_parent e, datetime.dt_date (dva_date e), dva_schoolId e)
  | CertifiedByRow c => (dvc_parent c, dvc_date c, dvc_schoolId c)
  end.

(** The voucher stored under a key, if any: the row [first()] returns. *)
Definition find_voucher (db : Database) (parent_date voucher_date : datetime.date)
    (school_id : Z) : option (nat * DisbursementVoucher) :=
  list_find (λ v, matches (voucher_stmt parent_date voucher_date school_id) v = true)
    (vouchers db).

(** The caller is turned away with [e]: resolving the token raises it, or
    the permission check for [scope] does. *)
Definition auth_fails (db : Database) (token scope : string)
    (e : Exception) : Prop :=
  get_user db token = inl e
  ∨ ∃ user, get_user db token = inr user
            ∧ verify_user_permission db user scope = inl e.

(** The header fields of a response are those of a request. *)
Definition header_of_request (request : DisbursementVoucherCreateRequest)
    (resp : DisbursementVoucherResponse) : Prop :=
  resp_modeOfPayment resp = req_modeOfPayment request
  ∧ resp_payee resp = req_payee request
  ∧ resp_tinOrEmployeeNo resp = req_tinOrEmployeeNo request
  ∧ resp_responsibilityCenter resp = req_responsibilityCenter request
  ∧ resp_orsbursNo resp = req_orsbursNo request
  ∧ resp_address resp = req_address request
  ∧ resp_linkedLiquidationCategory resp
    = req_linkedLiquidationCategory request
  ∧ resp_certifiedCashAvailable resp = req_certifiedCashAvailable request
  ∧ resp_certifiedSupportingDocsComplete resp
    = req_certifiedSupportingDocsComplete request
  ∧ resp_certifiedSubjectToDebitAccount resp
    = req_certifiedSubjectToDebitAccount request
  ∧ resp_approvedBy resp = req_approvedBy request
  ∧ resp_checkNo resp = req_checkNo request
  ∧ resp_bankNameAndAccountNo resp = req_bankNameAndAccountNo request
  ∧ resp_adaNo resp = req_adaNo request
  ∧ resp_jevNo resp = req_jevNo request.

(** The status the store holds for a key: that of the stored voucher, or
    the column default a new row gets. *)
Definition stored_status (db : Database) (parent_date voucher_date : datetime.date)
    (school_id : Z) : ReportStatus :=
  match find_voucher db parent_date voucher_date school_id with
  | Some (_, v) => dv_reportStatus v
  | None => default_status
  end.

(** What the month listing selects: the vouchers of the month and school,
    and, when a non-empty [linked_category] is given, of that linked
    category. *)
Definition listed (parent_date : datetime.date) (school_id : Z)
    (linked_category : option string) (v : DisbursementVoucher) : Prop :=
  dv_parent v = parent_date ∧ dv_schoolId v = school_id
  ∧ match linked_category with
    | Some (String a c) => dv_linkedLiquidationCategory v = Some (String a c)
    | Some EmptyString | None => True
    end.

#[global] Instance listed_dec p n c v : Decision (listed p n c v).
Proof. unfold listed. destruct c as [[|a c]|]; apply _. Defined.

(** The selection as the specification words it: every supplied
    [linked_category] narrows the listing to its exact matches. *)
Definition listed_as_specified (parent_date : datetime.date) (school_id : Z)
    (linked_category : option string) (v : DisbursementVoucher) : Prop :=
  dv_parent v = parent_date ∧ dv_schoolId v = school_id
  ∧ (is_Some linked_category →
     dv_linkedLiquidationCategory v = linked_category).

#[global] Instance listed_as_specified_dec p n c v :
  Decision (listed_as_specified p n c v).
Proof. unfold listed_as_specified. apply _. Defined.

(** The statement the month listing executes. *)
Definition month_stmt (parent_date : datetime.date) (school_id : Z)
    (linked_category : option string) : Select :=
  let stmt :=
    where_ select_DisbursementVoucher
      [parent_eq parent_date; schoolId_eq school_id] in
  if truthy linked_category then
    where_ stmt [linkedLiquidationCategory_eq (default "" linked_category)]
  else stmt.

(** The three lazy loads behind one response. *)
Definition loads (v : DisbursementVoucher) : list Event :=
  [LazyLoad rel_entries v; LazyLoad rel_accounting_entries v;
   LazyLoad rel_certified_by v].

(** The three parts of what [handle] returns. *)
Definition result_of {T} (o : (Exception + T) * Database * list Event)
    : Exception + T := o.1.1.

Definition database_after {T} (o : (Exception + T) * Database * list Event)
    : Database := o.1.2.

Definition trace_of {T} (o : (Exception + T) * Database * list Event)
    : list Event := o.2.

(** The rows an upsert inserts for a request. *)
Definition rows_of_request (parent_date voucher_date : datetime.date)
    (school_id : Z) (request : DisbursementVoucherCreateRequest)
    : list ChildRow :=
  ((λ x, EntryRow (make_entry parent_date voucher_date school_id x))
     <$> req_entries request)
  ++ ((λ x, AccountingEntryRow
             (make_accounting_entry parent_date voucher_date school_id x))
        <$> req_accountingEntries request)
  ++ ((λ x, CertifiedByRow
             (make_certified_by parent_date voucher_date school_id x))
        <$> req_certifiedBy request).

(** The database an upsert commits, written out table by table; the
    handler is shown to commit exactly this ([upsert_existing_run],
    [upsert_new_run]). *)
Definition upserted (parent_date voucher_date : datetime.date)
    (school_id : Z) (request : DisbursementVoucherCreateRequest)
    (db : Database) : Database :=
  match find_voucher db parent_date voucher_date school_id with
  | Some (i, v) =>
      {| vouchers := alter (update_voucher_fields request) i (vouchers db);
         entries :=
           filter (λ e, ¬ entry_of v e) (entries db)
           ++ (make_entry parent_date voucher_date school_id
                 <$> req_entries request);
         accounting_entries :=
           filter (λ e, ¬ accounting_entry_of v e) (accounting_entries db)
           ++ (make_accounting_entry parent_date voucher_date school_id
                 <$> req_accountingEntries request);
         certified_by :=
           filter (λ c, ¬ certified_by_of v c) (certified_by db)
           ++ (make_certified_by parent_date voucher_date school_id
                 <$> req_certifiedBy request) |}
  | None =>
      {| vouchers :=
           vouchers db
           ++ [update_voucher_fields request
                 (new_DisbursementVoucher parent_date voucher_date school_id)];
         entries :=
           entries db
           ++ (make_entry parent_date voucher_date school_id
                 <$> req_entries request);
         accounting_entries :=
           accounting_entries db
           ++ (make_accounting_entry parent_date voucher_date school_id
                 <$> req_accountingEntries request);
         certified_by :=
           certified_by db
           ++ (make_certified_by parent_date voucher_date school_id
                 <$> req_certifiedBy request) |}
  end.

(** *** Notions for the properties of the store as a whole *)

(** The key of a voucher row. *)
Definition voucher_key (v : DisbursementVoucher)
    : datetime.date * datetime.date * Z :=
  (dv_parent v, dv_date v, dv_schoolId v).

(** No two voucher rows share a key. *)
Definition unique_keys (db : Database) : Prop :=
  NoDup (voucher_key <$> vouchers db).

(** All child rows of the three tables. *)
Definition all_rows (db : Database) : list ChildRow :=
  (EntryRow <$> entries db)
  ++ (AccountingEntryRow <$> accounting_entries db)
  ++ (CertifiedByRow <$> certified_by db).

(** Every child row carries the key of some voucher row. *)
Definition no_orphans (db : Database) : Prop :=
  Forall (λ r, row_key r ∈ voucher_key <$> vouchers db) (all_rows db).

#[global] Instance unique_keys_dec db : Decision (unique_keys db).
Proof. unfold unique_keys. apply _. Defined.

#[global] Instance no_orphans_dec db : Decision (no_orphans db).
Proof. unfold no_orphans. apply _. Defined.

Definition is_commit (e : Event) : bool :=
  match e with
  | Commit => true
  | _ => false
  end.

(** A body that gives only the four required fields: the request model's
    defaults fill in the rest ([None], [False], the empty list). *)
Definition minimal_request (schoolId : Z) (date : datetime.date)
    (modeOfPayment payee : string) : DisbursementVoucherCreateRequest :=
  {| req_schoolId := schoolId; req_date := date;
     req_modeOfPayment := modeOfPayment; req_payee := payee;
     req_tinOrEmployeeNo := None; req_responsibilityCenter := None;
     req_orsbursNo := None; req_address := None;
     req_linkedLiquidationCategory := None;
     req_certifiedCashAvailable := false;
     req_certifiedSupportingDocsComplete := false;
     req_certifiedSubjectToDebitAccount := false;
     req_approvedBy := None; req_checkNo := None;
     req_bankNameAndAccountNo := None; req_adaNo := None; req_jevNo := None;
     req_entries := []; req_accountingEntries := []; req_certifiedBy := [] |}.

(** The same body with other values in its [schoolId] and [date] fields. *)
Definition with_body_key (schoolId : Z) (date : datetime.date)
    (request : DisbursementVoucherCreateRequest)
    : DisbursementVoucherCreateRequest :=
  {| req_schoolId := schoolId; req_date := date;
     req_modeOfPayment := req_modeOfPayment request;
     req_payee := req_payee request;
     req_tinOrEmployeeNo := req_tinOrEmployeeNo request;
     req_responsibilityCenter := req_responsibilityCenter request;
     req_orsbursNo := req_orsbursNo request;
     req_address := req_address request;
     req_linkedLiquidationCategory := req_linkedLiquidationCategory request;
     req_certifiedCashAvailable := req_certifiedCashAvailable request;
     req_certifiedSupportingDocsComplete :=
       req_certifiedSupportingDocsComplete request;
     req_certifiedSubjectToDebitAccount :=
       req_certifiedSubjectToDebitAccount request;
     req_approvedBy := req_approvedBy request;
     req_checkNo := req_checkNo request;
     req_bankNameAndAccountNo := req_bankNameAndAccountNo request;
     req_adaNo := req_adaNo request; req_jevNo := req_jevNo request;
     req_entries := req_entries request;
     req_accountingEntries := req_accountingEntries request;
     req_certifiedBy := req_certifiedBy request |}.

(** *** The router

    The three routes of [router], as the calls a client can make, and what
    serving a call, or a sequence of calls, leaves in the database. *)
Inductive Call :=
  | POST (school_id year month date : Z)
      (request : DisbursementVoucherCreateRequest) (token : string)
  | GET (school_id year month date : Z) (token : string)
  | GET_month (school_id year month : Z) (token : string)
      (linked_category : option string).

Definition serve (c : Call) (db : Database) : Database :=
  match c with
  | POST school_id year month date request token =>
      database_after
        (handle (create_or_update_disbursement_voucher
                   school_id year month date request token) db)
  | GET school_id year month date token =>
      database_after
        (handle (get_disbursement_voucher school_id year month date token) db)
  | GET_month school_id year month token linked_category =>
      database_after
        (handle (get_disbursement_vouchers_for_month
                   school_id year month token linked_category) db)
  end.

Definition serve_all (calls : list Call) (db : Database) : Database :=
  foldl (λ db c, serve c db) db calls.

(** The four tables, empty. *)
Definition empty_database : Database :=
  {| vouchers := []; entries := []; accounting_entries := [];
     certified_by := [] |}.

(** *** Notions for what is stored and what is shown *)

(** A voucher row has the key (parent, date, schoolId). *)
Definition has_key (p d : datetime.date) (n : Z) (v : DisbursementVoucher)
    : Prop :=
  dv_parent v = p ∧ dv_date v = d ∧ dv_schoolId v = n.

#[global] Instance has_key_dec p d n v : Decision (has_key p d n v).
Proof. unfold has_key. apply _. Defined.

(** A voucher row holds the header fields of a request. *)
Definition stores_request (request : DisbursementVoucherCreateRequest)
    (v : DisbursementVoucher) : Prop :=
  dv_modeOfPayment v = req_modeOfPayment request
  ∧ dv_payee v = req_payee request
  ∧ dv_tinOrEmployeeNo v = req_tinOrEmployeeNo request
  ∧ dv_responsibilityCenter v = req_responsibilityCenter request
  ∧ dv_orsbursNo v = req_orsbursNo request
  ∧ dv_address v = req_address request
  ∧ dv_linkedLiquidationCategory v = req_linkedLiquidationCategory request
  ∧ dv_certifiedCashAvailable v = req_certifiedCashAvailable request
  ∧ dv_certifiedSupportingDocsComplete v
    = req_certifiedSupportingDocsComplete request
  ∧ dv_certifiedSubjectToDebitAccount v
    = req_certifiedSubjectToDebitAccount request
  ∧ dv_approvedBy v = req_approvedBy request
  ∧ dv_checkNo v = req_checkNo request
  ∧ dv_bankNameAndAccountNo v = req_bankNameAndAccountNo request
  ∧ dv_adaNo v = req_adaNo request
  ∧ dv_jevNo v = req_jevNo request.

(** A response shows a voucher row: key, header fields and status. *)
Definition shows_voucher (v : DisbursementVoucher)
    (resp : DisbursementVoucherResponse) : Prop :=
  resp_parent resp = dv_parent v
  ∧ resp_date resp = dv_date v
  ∧ resp_schoolId resp = dv_schoolId v
  ∧ resp_modeOfPayment resp = dv_modeOfPayment v
  ∧ resp_payee resp = dv_payee v
  ∧ resp_tinOrEmployeeNo resp = dv_tinOrEmployeeNo v
  ∧ resp_responsibilityCenter resp = dv_responsibilityCenter v
  ∧ resp_orsbursNo resp = dv_orsbursNo v
  ∧ resp_address resp = dv_address v
  ∧ resp_linkedLiquidationCategory resp = dv_linkedLiquidationCategory v
  ∧ resp_reportStatus resp = dv_reportStatus v
  ∧ resp_certifiedCashAvailable resp = dv_certifiedCashAvailable v
  ∧ resp_certifiedSupportingDocsComplete resp
    = dv_certifiedSupportingDocsComplete v
  ∧ resp_certifiedSubjectToDebitAccount resp
    = dv_certifiedSubjectToDebitAccount v
  ∧ resp_approvedBy resp = dv_approvedBy v
  ∧ resp_checkNo resp = dv_checkNo v
  ∧ resp_bankNameAndAccountNo resp = dv_bankNameAndAccountNo v
  ∧ resp_adaNo resp = dv_adaNo v
  ∧ resp_jevNo resp = dv_jevNo v.

(** The five data fields of an entry row and the four of an
    accounting-entry row, as a response lists them. *)
Definition entry_fields (e : DisbursementVoucherEntry)
    : DisbursementVoucherEntryData :=
  {| ed_receipt := dve_receipt e; ed_particulars := dve_particulars e;
     ed_unit := dve_unit e; ed_quantity := dve_quantity e;
     ed_unitPrice := dve_unitPrice e |}.

Definition accounting_entry_fields (e : DisbursementVoucherAccountingEntry)
    : DisbursementVoucherAccountingEntryData :=
  {| ad_uacs_code := dva_uacs_code e; ad_accountTitle := dva_accountTitle e;
     ad_debit := dva_debit e; ad_credit := dva_credit e |}.

End Model.

(** ** The framework around a handler

    An [HTTPException] raised by a handler is answered with its own status
    code; any other exception that escapes a handler is answered by the
    server-error middleware. *)
Definition http_status (e : Exception) : Z :=
  match e with
  | HTTPException status_code _ => status_code
  | _ => HTTP_500_INTERNAL_SERVER_ERROR
  end.

(** ** A concrete server, for running the handlers

    Amounts are whole numbers, the status is its name, a user is a login
    name.  The token "admin-token" belongs to "admin", who holds every
    scope; "viewer-token" belongs to "viewer", who may only read;
    "guest-token" belongs to "guest", who holds no scope. *)

Definition sample_models : Models :=
  {| float := Z; ReportStatus := string; default_status := "draft";
     User := string |}.

Definition sample_get_user (db : @Database sample_models) (token : string)
    : Exception + string :=
  if decide (token = "admin-token") then inr "admin"
  else if decide (token = "viewer-token") then inr "viewer"
  else if decide (token = "guest-token") then inr "guest"
  else inl (HTTPException 401 "Invalid token").

Definition sample_verify_user_permission (db : @Database sample_models)
    (user scope : string) : Exception + unit :=
  if decide (user = "admin") then inr tt
  else if decide (user = "viewer" ∧ scope = "reports:local:read") then inr tt
  else inl (HTTPException 403 "Permission denied").

Definition sample_auth : @Auth sample_models :=
  {| get_user := sample_get_user;
     verify_user_permission := sample_verify_user_permission |}.

Definition empty_db : @Database sample_models :=
  {| vouchers := []; entries := []; accounting_entries := [];
     certified_by := [] |}.

Definition line (receipt : option string) (particulars unit : string)
    (quantity unitPrice : Z) : @DisbursementVoucherEntryData sample_models :=
  @Build_DisbursementVoucherEntryData sample_models
    receipt particulars unit quantity unitPrice.

Definition accounting_line (uacs_code accountTitle : string) (debit credit : Z)
    : @DisbursementVoucherAccountingEntryData sample_models :=
  @Build_DisbursementVoucherAccountingEntryData sample_models
    uacs_code accountTitle debit credit.

(** The payload of the example: payee "Jane Doe", one line of two boxes of
    paper at 50. *)
Definition sample_request : @DisbursementVoucherCreateRequest sample_models :=
  {| req_schoolId := 5; req_date := datetime.mkdate 2024 3 15;
     req_modeOfPayment := "Check"; req_payee := "Jane Doe";
     req_tinOrEmployeeNo := None; req_responsibilityCenter := None;
     req_orsbursNo := None; req_address := None;
     req_linkedLiquidationCategory := Some "supplies";
     req_certifiedCashAvailable := true;
     req_certifiedSupportingDocsComplete := false;
     req_certifiedSubjectToDebitAccount := false;
     req_approvedBy := Some "principal"; req_checkNo := None;
     req_bankNameAndAccountNo := None; req_adaNo := None; req_jevNo := None;
     req_entries :=
       [ line None "Paper" "box" 2 50 ];
     req_accountingEntries :=
       [ accounting_line "5020301000" "Office Supplies" 100 0 ];
     req_certifiedBy := ["accountant"] |}.

(** A second payload for the same voucher: other payee, two other lines,
    no accounting line, two certifiers. *)
Definition second_request : @DisbursementVoucherCreateRequest sample_models :=
  {| req_schoolId := 5; req_date := datetime.mkdate 2024 3 15;
     req_modeOfPayment := "Cash"; req_payee := "John Roe";
     req_tinOrEmployeeNo := Some "123"; req_responsibilityCenter := None;
     req_orsbursNo := None; req_address := None;
     req_linkedLiquidationCategory := None;
     req_certifiedCashAvailable := false;
     req_certifiedSupportingDocsComplete := true;
     req_certifiedSubjectToDebitAccount := false;
     req_approvedBy := None; req_checkNo := Some "0042";
     req_bankNameAndAccountNo := None; req_adaNo := None; req_jevNo := None;
     req_entries :=
       [ line (Some "R-1") "Ink" "pc" 1 300; line None "Pens" "box" 3 20 ];
     req_accountingEntries := [];
     req_certifiedBy := ["accountant"; "bookkeeper"] |}.

(** The database after the sample request was posted for school 5 on
    2024-03-15 by "admin". *)
Definition sample_db : @Database sample_models :=
  (handle
     (@create_or_update_disbursement_voucher sample_models sample_auth
        5 2024 3 15 sample_request "admin-token")
     empty_db).1.2.

(** A payload of another linked category, for the 20th. *)
Definition travel_request : @DisbursementVoucherCreateRequest sample_models :=
  {| req_schoolId := 5; req_date := datetime.mkdate 2024 3 20;
     req_modeOfPayment := "Cash"; req_payee := "Ann Poe";
     req_tinOrEmployeeNo := None; req_responsibilityCenter := None;
     req_orsbursNo := None; req_address := None;
     req_linkedLiquidationCategory := Some "travel";
     req_certifiedCashAvailable := false;
     req_certifiedSupportingDocsComplete := false;
     req_certifiedSubjectToDebitAccount := false;
     req_approvedBy := None; req_checkNo := None;
     req_bankNameAndAccountNo := None; req_adaNo := None; req_jevNo := None;
     req_entries := [ line None "Bus fare" "trip" 2 75 ];
     req_accountingEntries := [];
     req_certifiedBy := ["accountant"] |}.

(** The sample database after the travel payload was posted too: school 5
    has two vouchers in March 2024, of categories "supplies" and
    "travel". *)
Definition march_db : @Database sample_models :=
  (handle
     (@create_or_update_disbursement_voucher sample_models sample_auth
        5 2024 3 20 travel_request "admin-token")
     sample_db).1.2.

(** * Properties *)

Section Properties.

Context `{M : Models} `{A : @Auth M}.

(** ** Dates *)

Lemma as_c_int_None v :
  datetime.as_c_int v = None ↔ datetime.INT_MIN ≤ v ≤ datetime.INT_MAX.
Proof.
  unfold datetime.as_c_int.
  destruct (Z.ltb_spec datetime.INT_MAX v);
    [|destruct (Z.ltb_spec v datetime.INT_MIN)];
    split; try discriminate; try reflexivity; lia.
Qed.

Lemma as_c_int_Some v e :
  datetime.as_c_int v = Some e → ∃ msg, e = OverflowError msg.
Proof.
  unfold datetime.as_c_int. repeat case_match; intros [= <-]; eauto.
Qed.

Lemma new_date_inr y m d x :
  datetime.new_date y m d = inr x → x = datetime.mkdate y m d.
Proof.
  unfold datetime.new_date. repeat case_match; congruence.
Qed.

Lemma days_in_month_bounds y m : 28 ≤ datetime.days_in_month y m ≤ 31.
Proof. unfold datetime.days_in_month. repeat case_match; lia. Qed.

Lemma new_date_valid y m d :
  datetime.MINYEAR ≤ y ≤ datetime.MAXYEAR → 1 ≤ m ≤ 12 →
  1 ≤ d ≤ datetime.days_in_month y m →
  datetime.new_date y m d = inr (datetime.mkdate y m d).
Proof.
  intros Hy Hm Hd. pose proof (days_in_month_bounds y m) as Hb.
  unfold datetime.new_date, datetime.MINYEAR, datetime.MAXYEAR in *.
  rewrite (proj2 (as_c_int_None y)), (proj2 (as_c_int_None m)),
    (proj2 (as_c_int_None d))
    by (unfold datetime.INT_MIN, datetime.INT_MAX; lia).
  replace ((1 <=? y) && (y <=? 9999)) with true
    by (symmetry; apply andb_true_intro; split; apply Z.leb_le; lia).
  replace ((1 <=? m) && (m <=? 12)) with true
    by (symmetry; apply andb_true_intro; split; apply Z.leb_le; lia).
  replace ((1 <=? d) && (d <=? datetime.days_in_month y m)) with true
    by (symmetry; apply andb_true_intro; split; apply Z.leb_le; lia).
  reflexivity.
Qed.

Lemma new_date_day_out_of_range y m d :
  datetime.MINYEAR ≤ y ≤ datetime.MAXYEAR → 1 ≤ m ≤ 12 →
  datetime.INT_MIN ≤ d ≤ datetime.INT_MAX →
  ¬ (1 ≤ d ≤ datetime.days_in_month y m) →
  datetime.new_date y m d = inl (ValueError "day is out of range for month").
Proof.
  intros Hy Hm Hfit Hd.
  unfold datetime.new_date, datetime.MINYEAR, datetime.MAXYEAR in *.
  rewrite (proj2 (as_c_int_None y)), (proj2 (as_c_int_None m)),
    (proj2 (as_c_int_None d))
    by (unfold datetime.INT_MIN, datetime.INT_MAX in *; lia).
  replace ((1 <=? y) && (y <=? 9999)) with true
    by (symmetry; apply andb_true_intro; split; apply Z.leb_le; lia).
  replace ((1 <=? m) && (m <=? 12)) with true
    by (symmetry; apply andb_true_intro; split; apply Z.leb_le; lia).
  replace ((1 <=? d) && (d <=? datetime.days_in_month y m)) with false;
    [reflexivity|].
  symmetry. apply andb_false_iff.
  destruct (Z.leb_spec 1 d); [right | left; reflexivity].
  apply Z.leb_gt. lia.
Qed.

(** A day beyond a C int is refused with an [OverflowError], whatever the
    year and the month that fit. *)
Lemma new_date_day_overflow y m d :
  datetime.INT_MIN ≤ y ≤ datetime.INT_MAX →
  datetime.INT_MIN ≤ m ≤ datetime.INT_MAX →
  ¬ (datetime.INT_MIN ≤ d ≤ datetime.INT_MAX) →
  ∃ msg, datetime.new_date y m d = inl (OverflowError msg).
Proof.
  intros Hy Hm Hd. unfold datetime.new_date.
  rewrite (proj2 (as_c_int_None y) Hy), (proj2 (as_c_int_None m) Hm).
  destruct (datetime.as_c_int d) as [e|] eqn:He.
  - apply as_c_int_Some in He as [msg ->]. eauto.
  - apply as_c_int_None in He. contradiction.
Qed.

(** ** Deleting the loaded children *)

Lemma remove_first_skip {T} `{EqDecision T} (P : T → Prop) a xs l :
  ¬ P a → Forall P xs →
  foldl (λ acc x, remove_first x acc) (a :: l) xs
  = a :: foldl (λ acc x, remove_first x acc) l xs.
Proof.
  intros Ha Hxs. revert l. induction Hxs as [|x xs Hx _ IH]; intros l.
  - reflexivity.
  - cbn. destruct (decide (x = a)) as [->|_]; [contradiction|]. apply IH.
Qed.

Lemma remove_first_filter {T} `{EqDecision T} (P : T → Prop)
    `{∀ x, Decision (P x)} (l : list T) :
  foldl (λ acc x, remove_first x acc) l (filter P l)
  = filter (λ x, ¬ P x) l.
Proof.
  induction l as [|a l IH].
  - reflexivity.
  - rewrite !filter_cons. destruct (decide (P a)) as [Ha|Ha].
    + rewrite decide_False by tauto. cbn.
      rewrite decide_True by reflexivity. exact IH.
    + rewrite decide_True by assumption.
      rewrite (remove_first_skip P); [now rewrite IH | assumption |].
      apply Forall_forall. intros x Hx. now apply list_elem_of_filter in Hx.
Qed.

(** ** Running the session operations *)

Ltac step :=
  unfold mbind, Req_bind, mret, Req_ret, log, current, modify, call, raise;
  cbn [fst snd committed working trace
       vouchers entries accounting_entries certified_by].

Lemma db_add_run (r : ChildRow) (s : Session) :
  db_add r s
  = (inr tt, {| committed := committed s; working := insert_row r (working s);
                trace := trace s ++ [Add r] |}).
Proof. reflexivity. Qed.

Lemma db_delete_run (r : ChildRow) (s : Session) :
  db_delete r s
  = (inr tt, {| committed := committed s; working := delete_row r (working s);
                trace := trace s ++ [Delete r] |}).
Proof. reflexivity. Qed.

Lemma for_db_add {T} (f : T → ChildRow) (xs : list T) (s : Session) :
  for_ xs (λ x, db_add (f x)) s
  = (inr tt,
     {| committed := committed s;
        working := foldl (λ db x, insert_row (f x) db) (working s) xs;
        trace := trace s ++ ((λ x, Add (f x)) <$> xs) |}).
Proof.
  revert s. induction xs as [|x xs IH]; intros [c w t].
  - cbn. now rewrite app_nil_r.
  - cbn [for_]. unfold mbind, Req_bind. rewrite db_add_run, IH. cbn.
    now rewrite <- app_assoc.
Qed.

Lemma for_db_delete {T} (f : T → ChildRow) (xs : list T) (s : Session) :
  for_ xs (λ x, db_delete (f x)) s
  = (inr tt,
     {| committed := committed s;
        working := foldl (λ db x, delete_row (f x) db) (working s) xs;
        trace := trace s ++ ((λ x, Delete (f x)) <$> xs) |}).
Proof.
  revert s. induction xs as [|x xs IH]; intros [c w t].
  - cbn. now rewrite app_nil_r.
  - cbn [for_]. unfold mbind, Req_bind. rewrite db_delete_run, IH. cbn.
    now rewrite <- app_assoc.
Qed.

Lemma foldl_insert_entries {T} (g : T → DisbursementVoucherEntry) db xs :
  foldl (λ db x, insert_row (EntryRow (g x)) db) db xs
  = {| vouchers := vouchers db; entries := entries db ++ (g <$> xs);
       accounting_entries := accounting_entries db;
       certified_by := certified_by db |}.
Proof.
  revert db. induction xs as [|x xs IH]; intros [vs es aes cs]; cbn.
  - now rewrite app_nil_r.
  - rewrite IH. cbn. now rewrite <- app_assoc.
Qed.

Lemma foldl_insert_accounting_entries {T}
    (g : T → DisbursementVoucherAccountingEntry) db xs :
  foldl (λ db x, insert_row (AccountingEntryRow (g x)) db) db xs
  = {| vouchers := vouchers db; entries := entries db;
       accounting_entries := accounting_entries db ++ (g <$> xs);
       certified_by := certified_by db |}.
Proof.
  revert db. induction xs as [|x xs IH]; intros [vs es aes cs]; cbn.
  - now rewrite app_nil_r.
  - rewrite IH. cbn. now rewrite <- app_assoc.
Qed.

Lemma foldl_insert_certified_by {T}
    (g : T → DisbursementVoucherCertifiedBy) db xs :
  foldl (λ db x, insert_row (CertifiedByRow (g x)) db) db xs
  = {| vouchers := vouchers db; entries := entries db;
       accounting_entries := accounting_entries db;
       certified_by := certified_by db ++ (g <$> xs) |}.
Proof.
  revert db. induction xs as [|x xs IH]; intros [vs es aes cs]; cbn.
  - now rewrite app_nil_r.
  - rewrite IH. cbn. now rewrite <- app_assoc.
Qed.

Lemma foldl_delete_entries db xs :
  foldl (λ db x, delete_row (EntryRow x) db) db xs
  = {| vouchers := vouchers db;
       entries := foldl (λ acc x, remove_first x acc) (entries db) xs;
       accounting_entries := accounting_entries db;
       certified_by := certified_by db |}.
Proof.
  revert db. induction xs as [|x xs IH]; intros [vs es aes cs]; cbn.
  - reflexivity.
  - now rewrite IH.
Qed.

Lemma foldl_delete_accounting_entries db xs :
  foldl (λ db x, delete_row (AccountingEntryRow x) db) db xs
  = {| vouchers := vouchers db; entries := entries db;
       accounting_entries :=
         foldl (λ acc x, remove_first x acc) (accounting_entries db) xs;
       certified_by := certified_by db |}.
Proof.
  revert db. induction xs as [|x xs IH]; intros [vs es aes cs]; cbn.
  - reflexivity.
  - now rewrite IH.
Qed.

Lemma foldl_delete_certified_by db xs :
  foldl (λ db x, delete_row (CertifiedByRow x) db) db xs
  = {| vouchers := vouchers db; entries := entries db;
       accounting_entries := accounting_entries db;
       certified_by :=
         foldl (λ acc x, remove_first x acc) (certified_by db) xs |}.
Proof.
  revert db. induction xs as [|x xs IH]; intros [vs es aes cs]; cbn.
  - reflexivity.
  - now rewrite IH.
Qed.

Lemma build_response_run (v : DisbursementVoucher) (s : Session) :
  build_response v s
  = (inr (response_of (working s) v),
     {| committed := committed s; working := working s;
        trace := trace s ++ [LazyLoad rel_entries v;
                             LazyLoad rel_accounting_entries v;
                             LazyLoad rel_certified_by v] |}).
Proof.
  destruct s as [c w t].
  unfold build_response, response_of, voucher_entries,
    voucher_accounting_entries, voucher_certified_by.
  step. now rewrite <- !app_assoc.
Qed.

(** ** The upsert, run from a fresh session *)

Section Upsert.

Variables (db : Database) (school_id year month date : Z).
Variables (request : DisbursementVoucherCreateRequest) (token : string).
Variables (user : User) (parent_date voucher_date : datetime.date).
Hypothesis Huser : get_user db token = inr user.
Hypothesis Hperm :
  verify_user_permission db user "reports:local:write" = inr tt.
Hypothesis Hparent : datetime.new_date year month 1 = inr parent_date.
Hypothesis Hdate : datetime.new_date year month date = inr voucher_date.

Lemma upsert_existing_run i v :
  find_voucher db parent_date voucher_date school_id = Some (i, v) →
  handle (create_or_update_disbursement_voucher
            school_id year month date request token) db
  = (inr (response_of (upserted parent_date voucher_date school_id request db)
            (update_voucher_fields request v)),
     upserted parent_date voucher_date school_id request db,
     [Exec (voucher_stmt parent_date voucher_date school_id);
      LazyLoad rel_entries v]
     ++ ((λ x, Delete (EntryRow x)) <$> filter (entry_of v) (entries db))
     ++ [LazyLoad rel_accounting_entries v]
     ++ ((λ x, Delete (AccountingEntryRow x))
           <$> filter (accounting_entry_of v) (accounting_entries db))
     ++ [LazyLoad rel_certified_by v]
     ++ ((λ x, Delete (CertifiedByRow x))
           <$> filter (certified_by_of v) (certified_by db))
     ++ [SetAttrs i]
     ++ (Add <$> rows_of_request parent_date voucher_date school_id request)
     ++ [Commit; Refresh i;
         LazyLoad rel_entries (update_voucher_fields request v);
         LazyLoad rel_accounting_entries (update_voucher_fields request v);
         LazyLoad rel_certified_by (update_voucher_fields request v)]).
Proof.
  intros Hfind. unfold upserted. rewrite Hfind.
  unfold handle, open_session, create_or_update_disbursement_voucher,
    db_get_user, db_verify_user_permission, exec_first.
  step. rewrite Huser. step. rewrite Hperm, Hparent, Hdate. step.
  fold (find_voucher db parent_date voucher_date school_id).
  rewrite Hfind.
  unfold voucher_entries. step. rewrite for_db_delete. step.
  rewrite foldl_delete_entries, remove_first_filter.
  unfold voucher_accounting_entries. step. rewrite for_db_delete. step.
  rewrite foldl_delete_accounting_entries, remove_first_filter.
  unfold voucher_certified_by. step. rewrite for_db_delete. step.
  rewrite foldl_delete_certified_by, remove_first_filter. step.
  unfold set_attrs, with_vouchers. step.
  rewrite for_db_add. step. rewrite foldl_insert_entries. step.
  rewrite for_db_add. step. rewrite foldl_insert_accounting_entries. step.
  rewrite for_db_add. step. rewrite foldl_insert_certified_by. step.
  unfold db_commit. step. unfold db_refresh. step.
  apply list_find_Some in Hfind as (Hi & _ & _).
  rewrite list_lookup_alter_eq, Hi. cbn [fmap option_fmap option_map].
  rewrite build_response_run. step.
  f_equal. unfold rows_of_request.
  rewrite !fmap_app, <- !list_fmap_compose, <- !app_assoc.
  reflexivity.
Qed.

Lemma upsert_new_run :
  find_voucher db parent_date voucher_date school_id = None →
  let v := new_DisbursementVoucher parent_date voucher_date school_id in
  handle (create_or_update_disbursement_voucher
            school_id year month date request token) db
  = (inr (response_of (upserted parent_date voucher_date school_id request db)
            (update_voucher_fields request v)),
     upserted parent_date voucher_date school_id request db,
     [Exec (voucher_stmt parent_date voucher_date school_id);
      AddVoucher v; SetAttrs (length (vouchers db))]
     ++ (Add <$> rows_of_request parent_date voucher_date school_id request)
     ++ [Commit; Refresh (length (vouchers db));
         LazyLoad rel_entries (update_voucher_fields request v);
         LazyLoad rel_accounting_entries (update_voucher_fields request v);
         LazyLoad rel_certified_by (update_voucher_fields request v)]).
Proof.
  intros Hfind v. unfold upserted. rewrite Hfind.
  unfold handle, open_session, create_or_update_disbursement_voucher,
    db_get_user, db_verify_user_permission, exec_first.
  step. rewrite Huser. step. rewrite Hperm, Hparent, Hdate. step.
  fold (find_voucher db parent_date voucher_date school_id).
  rewrite Hfind.
  unfold db_add_voucher. step. unfold set_attrs, with_vouchers. step.
  rewrite for_db_add. step. rewrite foldl_insert_entries. step.
  rewrite for_db_add. step. rewrite foldl_insert_accounting_entries. step.
  rewrite for_db_add. step. rewrite foldl_insert_certified_by. step.
  unfold db_commit. step. unfold db_refresh. step.
  rewrite alter_app_r_alt by reflexivity. rewrite Nat.sub_diag.
  cbn [alter list_alter]. rewrite list_lookup_middle by reflexivity.
  rewrite build_response_run. step.
  f_equal. unfold rows_of_request.
  rewrite !fmap_app, <- !list_fmap_compose, <- !app_assoc.
  reflexivity.
Qed.

End Upsert.

(** ** The key of a voucher and its children *)

Lemma matches_voucher_stmt p d n (v : DisbursementVoucher) :
  matches (voucher_stmt p d n) v = true
  ↔ dv_parent v = p ∧ dv_date v = d ∧ dv_schoolId v = n.
Proof.
  unfold matches, voucher_stmt, where_, select_DisbursementVoucher. cbn.
  rewrite !andb_true_iff, !bool_decide_eq_true. tauto.
Qed.

Lemma find_voucher_Some db p d n i v :
  find_voucher db p d n = Some (i, v) →
  vouchers db !! i = Some v
  ∧ dv_parent v = p ∧ dv_date v = d ∧ dv_schoolId v = n.
Proof.
  unfold find_voucher. intros (Hi & Hv & _)%list_find_Some.
  now apply matches_voucher_stmt in Hv.
Qed.

Lemma filter_none {T} (P : T → Prop) `{∀ x, Decision (P x)} (l : list T) :
  Forall (λ x, ¬ P x) l → filter P l = [].
Proof.
  induction 1 as [|x l Hx _ IH]; [reflexivity|].
  now rewrite filter_cons_False.
Qed.

Lemma filter_all {T} (P : T → Prop) `{∀ x, Decision (P x)} (l : list T) :
  Forall P l → filter P l = l.
Proof.
  induction 1 as [|x l Hx _ IH]; [reflexivity|].
  rewrite filter_cons_True by assumption. now rewrite IH.
Qed.

(** Among the rows left after the old children went and the new ones
    came, the children are the new ones. *)
Lemma filter_replaced {T} (P : T → Prop) `{∀ x, Decision (P x)}
    (old new : list T) :
  Forall P new →
  filter P (filter (λ x, ¬ P x) old ++ new) = new.
Proof.
  intros Hnew. rewrite filter_app. rewrite (filter_all P new) by assumption.
  rewrite filter_none; [reflexivity|].
  apply Forall_forall. intros x Hx. now apply list_elem_of_filter in Hx.
Qed.

(** The voucher an upsert writes to: the stored one, or a new row at the
    end of the table. *)
Lemma find_voucher_upserted p d n request db :
  ∃ i v,
    find_voucher (upserted p d n request db) p d n
      = Some (i, update_voucher_fields request v)
    ∧ dv_parent v = p ∧ dv_date v = d ∧ dv_schoolId v = n
    ∧ match find_voucher db p d n with
      | Some (j, v0) =>
          i = j ∧ v = v0
          ∧ vouchers (upserted p d n request db)
            = alter (update_voucher_fields request) i (vouchers db)
      | None =>
          i = length (vouchers db) ∧ v = new_DisbursementVoucher p d n
          ∧ vouchers (upserted p d n request db)
            = vouchers db ++ [update_voucher_fields request v]
      end.
Proof.
  unfold upserted. destruct (find_voucher db p d n) as [[j v0]|] eqn:Hfind.
  - exists j, v0. pose proof (find_voucher_Some _ _ _ _ _ _ Hfind) as (Hj & Hp & Hd & Hn).
    split; [|repeat split; assumption]. unfold find_voucher in *. cbn [vouchers].
    apply list_find_Some in Hfind as (_ & Hv0 & Hleast).
    apply list_find_Some. split; [|split].
    + now rewrite list_lookup_alter_eq, Hj.
    + apply matches_voucher_stmt. cbn. auto.
    + intros k y Hk Hlt. rewrite list_lookup_alter_ne in Hk by lia.
      now apply (Hleast k).
  - exists (length (vouchers db)), (new_DisbursementVoucher p d n).
    split; [|repeat split]. unfold find_voucher in *. cbn [vouchers].
    rewrite list_find_app_r by assumption. cbn.
    now rewrite !bool_decide_eq_true_2.
Qed.

(** ** Reading the log *)

Lemma added_rows_app t1 t2 :
  added_rows (t1 ++ t2) = added_rows t1 ++ added_rows t2.
Proof. apply omap_app. Qed.

Lemma added_rows_Add rs : added_rows (Add <$> rs) = rs.
Proof.
  unfold added_rows, deleted_rows.
  induction rs as [|r rs IH]; cbn; [|rewrite IH]; reflexivity.
Qed.

Lemma added_rows_Delete {T} (f : T → ChildRow) xs :
  added_rows ((λ x, Delete (f x)) <$> xs) = [].
Proof.
  unfold added_rows, deleted_rows.
  induction xs as [|x xs IH]; cbn; [|rewrite IH]; reflexivity.
Qed.

Lemma deleted_rows_app t1 t2 :
  deleted_rows (t1 ++ t2) = deleted_rows t1 ++ deleted_rows t2.
Proof. apply omap_app. Qed.

Lemma deleted_rows_Add rs : deleted_rows (Add <$> rs) = [].
Proof.
  unfold added_rows, deleted_rows.
  induction rs as [|r rs IH]; cbn; [|rewrite IH]; reflexivity.
Qed.

Lemma deleted_rows_Delete {T} (f : T → ChildRow) xs :
  deleted_rows ((λ x, Delete (f x)) <$> xs) = f <$> xs.
Proof.
  unfold added_rows, deleted_rows.
  induction xs as [|x xs IH]; cbn; [|rewrite IH]; reflexivity.
Qed.

Lemma new_date_first y m d x :
  datetime.new_date y m d = inr x →
  datetime.new_date y m 1 = inr (datetime.mkdate y m 1).
Proof.
  unfold datetime.new_date.
  change (datetime.as_c_int 1) with (@None Exception).
  destruct (datetime.as_c_int y); [discriminate|].
  destruct (datetime.as_c_int m); [discriminate|].
  destruct (datetime.as_c_int d); [discriminate|].
  destruct (negb ((datetime.MINYEAR <=? y) && (y <=? datetime.MAXYEAR)));
    [discriminate|].
  destruct (negb ((1 <=? m) && (m <=? 12))); [discriminate|].
  intros _.
  replace ((1 <=? 1) && (1 <=? datetime.days_in_month y m)) with true;
    [reflexivity|].
  unfold datetime.days_in_month. now repeat case_match.
Qed.

(** ** What an upsert does *)

Lemma upsert_run db school_id year month date request token p d :
  authorized db token "reports:local:write" →
  datetime.new_date year month 1 = inr p →
  datetime.new_date year month date = inr d →
  ∃ i v tr,
    handle (create_or_update_disbursement_voucher
              school_id year month date request token) db
    = (inr (response_of (upserted p d school_id request db)
              (update_voucher_fields request v)),
       upserted p d school_id request db, tr)
    ∧ find_voucher (upserted p d school_id request db) p d school_id
      = Some (i, update_voucher_fields request v)
    ∧ added_rows tr = rows_of_request p d school_id request
    ∧ match find_voucher db p d school_id with
      | Some (j, v0) =>
          i = j ∧ v = v0 ∧ deleted_rows tr = children db v0
          ∧ vouchers (upserted p d school_id request db)
            = alter (update_voucher_fields request) i (vouchers db)
      | None =>
          i = length (vouchers db)
          ∧ v = new_DisbursementVoucher p d school_id
          ∧ deleted_rows tr = []
          ∧ vouchers (upserted p d school_id request db)
            = vouchers db ++ [update_voucher_fields request v]
      end.
Proof.
  intros (user & Huser & Hperm) Hp Hd.
  destruct (find_voucher_upserted p d school_id request db)
    as (i & v & Hfind' & _ & _ & _ & Hcase).
  destruct (find_voucher db p d school_id) as [[j v0]|] eqn:Hfind.
  - destruct Hcase as (-> & -> & Hvs).
    eexists j, v0, _. split; [|split; [exact Hfind'|]].
    + exact (upsert_existing_run db school_id year month date request
               token user p d Huser Hperm Hp Hd j v0 Hfind).
    + repeat split; try assumption.
      * rewrite !added_rows_app, !added_rows_Delete, added_rows_Add.
        cbn. now rewrite app_nil_r.
      * rewrite !deleted_rows_app, !deleted_rows_Delete, deleted_rows_Add.
        unfold children. cbn. now rewrite app_nil_r.
  - destruct Hcase as (-> & -> & Hvs).
    eexists _, _, _. split; [|split; [exact Hfind'|]].
    + exact (upsert_new_run db school_id year month date request
               token user p d Huser Hperm Hp Hd Hfind).
    + repeat split; try assumption.
      * rewrite !added_rows_app, added_rows_Add. cbn. now rewrite app_nil_r.
      * rewrite !deleted_rows_app, deleted_rows_Add. reflexivity.
Qed.

(** ** What the two reading handlers do *)

Lemma get_run db school_id year month date token p d :
  authorized db token "reports:local:read" →
  datetime.new_date year month 1 = inr p →
  datetime.new_date year month date = inr d →
  handle (get_disbursement_voucher school_id year month date token) db
  = match find_voucher db p d school_id with
    | Some (_, v) =>
        (inr (response_of db v), db,
         Exec (voucher_stmt p d school_id) :: loads v)
    | None =>
        (inl (HTTPException HTTP_404_NOT_FOUND
                "Disbursement voucher not found."),
         db, [Exec (voucher_stmt p d school_id)])
    end.
Proof.
  intros (user & Huser & Hperm) Hp Hd.
  unfold handle, open_session, get_disbursement_voucher,
    db_get_user, db_verify_user_permission, exec_first.
  step. rewrite Huser. step. rewrite Hperm, Hp, Hd. step.
  fold (find_voucher db p d school_id).
  destruct (find_voucher db p d school_id) as [[i v]|].
  - rewrite build_response_run. reflexivity.
  - reflexivity.
Qed.

Lemma mapM_build_response (vs : list DisbursementVoucher) (s : Session) :
  mapM build_response vs s
  = (inr (response_of (working s) <$> vs),
     {| committed := committed s; working := working s;
        trace := trace s ++ (vs ≫= loads) |}).
Proof.
  revert s. induction vs as [|v vs IH]; intros [c w t].
  - cbn. now rewrite app_nil_r.
  - cbn [mapM]. step. rewrite build_response_run. step.
    rewrite IH. step. cbn. now rewrite <- app_assoc.
Qed.

Lemma list_run db school_id year month token linked_category p :
  authorized db token "reports:local:read" →
  datetime.new_date year month 1 = inr p →
  handle (get_disbursement_vouchers_for_month
            school_id year month token linked_category) db
  = let vs :=
      filter (λ v, matches (month_stmt p school_id linked_category) v = true)
        (vouchers db) in
    (inr (response_of db <$> vs), db,
     Exec (month_stmt p school_id linked_category) :: (vs ≫= loads)).
Proof.
  intros (user & Huser & Hperm) Hp.
  unfold handle, open_session, get_disbursement_vouchers_for_month,
    db_get_user, db_verify_user_permission, exec_all.
  step. rewrite Huser. step. rewrite Hperm, Hp. step.
  rewrite mapM_build_response. reflexivity.
Qed.

(** ** The claims *)

Lemma header_of_request_update request (v : DisbursementVoucher) db :
  header_of_request request
    (response_of db (update_voucher_fields request v)).
Proof. repeat split. Qed.

(** C1. For a valid date and a caller allowed to write, an upsert returns;
    a get for the same key by a caller allowed to read then returns a
    response whose header fields (payment mode, payee, the optional
    fields, the three certification flags, approver, check, bank, ADA and
    JEV references) are those of the submitted payload, whose key is the
    requested one, and whose report status is the one the store holds:
    the status the voucher already had, or the column default for a new
    voucher. *)
Theorem C1_upsert_then_get db school_id year month date request
    token token' voucher_date :
  datetime.new_date year month date = inr voucher_date →
  authorized db token "reports:local:write" →
  let posted :=
    handle (create_or_update_disbursement_voucher
              school_id year month date request token) db in
  authorized (database_after posted) token' "reports:local:read" →
  (∃ resp0, result_of posted = inr resp0)
  ∧ ∃ resp,
      result_of (handle (get_disbursement_voucher
                           school_id year month date token')
                   (database_after posted)) = inr resp
      ∧ header_of_request request resp
      ∧ resp_parent resp = datetime.mkdate year month 1
      ∧ resp_date resp = datetime.mkdate year month date
      ∧ resp_schoolId resp = school_id
      ∧ resp_reportStatus resp
        = stored_status db (datetime.mkdate year month 1)
            (datetime.mkdate year month date) school_id.
Proof.
  intros Hd Hw posted Hr.
  pose proof (new_date_first _ _ _ _ Hd) as Hp.
  pose proof (new_date_inr _ _ _ _ Hd) as ->.
  destruct (upsert_run db school_id year month date request token _ _
              Hw Hp Hd) as (i & v & tr & Hrun & Hfind' & _ & Hcase).
  subst posted. rewrite Hrun in *. unfold database_after, result_of in *.
  cbn [fst snd] in *. split; [eauto|].
  rewrite (get_run _ school_id year month date token' _ _ Hr Hp Hd).
  rewrite Hfind'. cbn [fst snd].
  eexists. split; [reflexivity|].
  split; [apply header_of_request_update|].
  unfold stored_status.
  destruct (find_voucher db _ _ school_id) as [[j v0]|] eqn:Hfind.
  - destruct Hcase as (-> & -> & _).
    apply find_voucher_Some in Hfind as (_ & Hk1 & Hk2 & Hk3).
    cbn. auto.
  - destruct Hcase as (-> & -> & _). cbn. auto.
Qed.

Lemma rows_of_request_keyed p d n request (v : DisbursementVoucher) :
  dv_parent v = p → dv_date v = d → dv_schoolId v = n →
  Forall (entry_of v) (make_entry p d n <$> req_entries request)
  ∧ Forall (accounting_entry_of v)
      (make_accounting_entry p d n <$> req_accountingEntries request)
  ∧ Forall (certified_by_of v)
      (make_certified_by p d n <$> req_certifiedBy request).
Proof.
  intros <- <- <-.
  repeat split; apply Forall_fmap, Forall_forall; intros x _;
    repeat split.
Qed.

(** The children of the voucher an upsert wrote over a stored voucher are
    the rows of the request. *)
Lemma children_upserted_existing p d n request db i v0 :
  find_voucher db p d n = Some (i, v0) →
  children (upserted p d n request db) (update_voucher_fields request v0)
  = rows_of_request p d n request.
Proof.
  intros Hfind. pose proof Hfind as (_ & Hp & Hd & Hn)%find_voucher_Some.
  destruct (rows_of_request_keyed p d n request v0 Hp Hd Hn)
    as (He & Ha & Hc).
  unfold children, upserted, rows_of_request. rewrite Hfind.
  cbn [entries accounting_entries certified_by].
  rewrite (filter_replaced (entry_of v0) _ _ He).
  rewrite (filter_replaced (accounting_entry_of v0) _ _ Ha).
  rewrite (filter_replaced (certified_by_of v0) _ _ Hc).
  now rewrite <- !list_fmap_compose.
Qed.

(** The rows of a request are among the children of the voucher the
    upsert wrote. *)
Lemma rows_of_request_children p d n request db i v r :
  find_voucher (upserted p d n request db) p d n = Some (i, v) →
  r ∈ rows_of_request p d n request →
  r ∈ children (upserted p d n request db) v.
Proof.
  intros (_ & Hp & Hd & Hn)%find_voucher_Some.
  destruct (rows_of_request_keyed p d n request v Hp Hd Hn)
    as (He & Ha & Hc).
  rewrite Forall_forall in He. rewrite Forall_forall in Ha.
  rewrite Forall_forall in Hc.
  unfold rows_of_request, children, upserted.
  rewrite !elem_of_app, !list_elem_of_fmap.
  intros [(x & -> & Hx)|[(x & -> & Hx)|(x & -> & Hx)]];
    [left|right; left|right; right]; eexists; (split; [reflexivity|]);
    apply list_elem_of_filter;
    (split; [first [apply He|apply Ha|apply Hc];
             apply list_elem_of_fmap; eauto|]);
    destruct (find_voucher db p d n) as [[? ?]|];
    cbn [entries accounting_entries certified_by];
    apply elem_of_app; right; apply list_elem_of_fmap; eauto.
Qed.

Lemma stores_request_update request (v : DisbursementVoucher) :
  stores_request request (update_voucher_fields request v).
Proof. repeat split. Qed.

(** C2. For a valid date and a caller allowed to write both times,
    upserting a first and then a second payload for the same key: the
    second upsert finds the voucher the first one wrote and updates that
    row in place: afterwards the row at the same position holds each of
    the fifteen header fields of the second payload, with the key and the
    report status it had, the table has the same length and every other
    voucher row is as it was.  The second upsert deletes every child row
    the first upsert inserted; and afterwards the children of the voucher,
    over entries, accounting entries and certifiers, are exactly the rows
    of the second payload, one per submitted line. *)
Theorem C2_second_upsert_replaces_children db school_id year month date
    request1 request2 token1 token2 voucher_date :
  datetime.new_date year month date = inr voucher_date →
  authorized db token1 "reports:local:write" →
  let first :=
    handle (create_or_update_disbursement_voucher
              school_id year month date request1 token1) db in
  authorized (database_after first) token2 "reports:local:write" →
  let second :=
    handle (create_or_update_disbursement_voucher
              school_id year month date request2 token2)
      (database_after first) in
  let p := datetime.mkdate year month 1 in
  ∃ i v1 v2,
    find_voucher (database_after first) p voucher_date school_id
      = Some (i, v1)
    ∧ find_voucher (database_after second) p voucher_date school_id
      = Some (i, v2)
    ∧ v2 = update_voucher_fields request2 v1
    ∧ vouchers (database_after second)
      = alter (update_voucher_fields request2) i
          (vouchers (database_after first))
    ∧ vouchers (database_after first) !! i = Some v1
    ∧ vouchers (database_after second) !! i = Some v2
    ∧ stores_request request2 v2
    ∧ has_key p voucher_date school_id v2
    ∧ dv_reportStatus v2 = dv_reportStatus v1
    ∧ length (vouchers (database_after second))
      = length (vouchers (database_after first))
    ∧ (∀ j, j ≠ i →
            vouchers (database_after second) !! j
            = vouchers (database_after first) !! j)
    ∧ (∀ r, r ∈ rows_of_request p voucher_date school_id request1 →
            r ∈ deleted_rows (trace_of second))
    ∧ children (database_after second) v2
      = rows_of_request p voucher_date school_id request2.
Proof.
  intros Hd Hw1 first Hw2 second p. subst p second first.
  pose proof (new_date_first _ _ _ _ Hd) as Hp.
  destruct (upsert_run db school_id year month date request1 token1 _ _
              Hw1 Hp Hd) as (i & v & tr1 & Hrun1 & Hfind1 & _ & _).
  rewrite Hrun1 in *. unfold database_after in *.
  cbn [fst snd] in *.
  destruct (upsert_run _ school_id year month date request2 token2 _ _
              Hw2 Hp Hd) as (i2 & v2 & tr2 & Hrun2 & Hfind2 & _ & Hcase).
  rewrite Hrun2. unfold trace_of. cbn [fst snd].
  rewrite Hfind1 in Hcase. destruct Hcase as (-> & -> & Hdel & Hvs).
  pose proof (find_voucher_Some _ _ _ _ _ _ Hfind1) as (Hi1 & _).
  pose proof (find_voucher_Some _ _ _ _ _ _ Hfind2) as (Hi2 & Hk).
  exists i, (update_voucher_fields request1 v),
    (update_voucher_fields request2 (update_voucher_fields request1 v)).
  split; [exact Hfind1|]. split; [exact Hfind2|]. split; [reflexivity|].
  split; [exact Hvs|]. split; [exact Hi1|]. split; [exact Hi2|].
  split; [apply stores_request_update|]. split; [exact Hk|].
  split; [reflexivity|].
  split; [rewrite Hvs; apply length_alter|].
  split; [intros j Hj; rewrite Hvs; now apply list_lookup_alter_ne|].
  split.
  - intros r Hr. rewrite Hdel.
    now apply (rows_of_request_children _ _ _ _ _ i).
  - now apply (children_upserted_existing _ _ _ _ _ i).
Qed.

Lemma status_column_alter request (l : list DisbursementVoucher) i :
  dv_reportStatus <$> alter (update_voucher_fields request) i l
  = dv_reportStatus <$> l.
Proof.
  revert i. induction l as [|v l IH]; intros [|i]; cbn; try reflexivity.
  f_equal. apply IH.
Qed.

(** C6. For a valid date and a caller allowed to write, whatever the
    payload: the upsert returns a response carrying the status the store
    held for the key before the request (the stored voucher's status, or
    the column default for a new voucher); the stored status of the key
    is unchanged by the request; and the status column of the whole
    voucher table is what it was, with the default appended when a row
    was created.  None of the three depends on the payload. *)
Theorem C6_status_not_written db school_id year month date request token
    voucher_date :
  datetime.new_date year month date = inr voucher_date →
  authorized db token "reports:local:write" →
  let posted :=
    handle (create_or_update_disbursement_voucher
              school_id year month date request token) db in
  let p := datetime.mkdate year month 1 in
  (∃ resp, result_of posted = inr resp
           ∧ resp_reportStatus resp
             = stored_status db p voucher_date school_id)
  ∧ stored_status (database_after posted) p voucher_date school_id
    = stored_status db p voucher_date school_id
  ∧ dv_reportStatus <$> vouchers (database_after posted)
    = (dv_reportStatus <$> vouchers db)
      ++ match find_voucher db p voucher_date school_id with
         | Some _ => []
         | None => [default_status]
         end.
Proof.
  intros Hd Hw posted p. subst p posted.
  pose proof (new_date_first _ _ _ _ Hd) as Hp.
  destruct (upsert_run db school_id year month date request token _ _
              Hw Hp Hd) as (i & v & tr & Hrun & Hfind' & _ & Hcase).
  rewrite Hrun. unfold database_after, result_of, stored_status.
  cbn [fst snd]. rewrite Hfind'.
  destruct (find_voucher db _ _ school_id) as [[j v0]|].
  - destruct Hcase as (-> & -> & _ & ->).
    rewrite status_column_alter, app_nil_r. eauto.
  - destruct Hcase as (-> & -> & _ & ->).
    rewrite fmap_app. eauto.
Qed.

Lemma rows_of_request_tagged p d n request :
  Forall (λ r, row_key r = (p, d, n)
               ∧ match r with
                 | EntryRow e =>
                     dve_date e = datetime.combine d datetime.new_time
                 | AccountingEntryRow e =>
                     dva_date e = datetime.combine d datetime.new_time
                 | CertifiedByRow c => dvc_date c = d
                 end)
    (rows_of_request p d n request).
Proof.
  unfold rows_of_request. rewrite !Forall_app.
  repeat split; apply Forall_fmap, Forall_forall; intros x _; now split.
Qed.

(** C9. For a valid date and a caller allowed to write, after the upsert
    the voucher stored under the key has [parent] the first day of
    (year, month), [date] the exact (year, month, day) and the requested
    school; the child rows the upsert inserted are one entry row per
    submitted line, one accounting-entry row per accounting line and one
    certifier row per certifying user, in that order; and each of them
    carries the header's parent, the header's school and the header's
    date (for entry and accounting-entry rows as the timestamp of that
    date at midnight). *)
Theorem C9_rows_tagged_with_key db school_id year month date request token
    voucher_date :
  datetime.new_date year month date = inr voucher_date →
  authorized db token "reports:local:write" →
  let posted :=
    handle (create_or_update_disbursement_voucher
              school_id year month date request token) db in
  let p := datetime.mkdate year month 1 in
  ∃ i v,
    find_voucher (database_after posted) p voucher_date school_id
      = Some (i, v)
    ∧ dv_parent v = datetime.mkdate year month 1
    ∧ dv_date v = datetime.mkdate year month date
    ∧ dv_schoolId v = school_id
    ∧ added_rows (trace_of posted)
      = rows_of_request p voucher_date school_id request
    ∧ Forall (λ r, row_key r = (dv_parent v, dv_date v, dv_schoolId v)
                   ∧ match r with
                     | EntryRow e =>
                         dve_date e
                         = datetime.combine (dv_date v) datetime.new_time
                     | AccountingEntryRow e =>
                         dva_date e
                         = datetime.combine (dv_date v) datetime.new_time
                     | CertifiedByRow c => dvc_date c = dv_date v
                     end)
        (added_rows (trace_of posted)).
Proof.
  intros Hd Hw posted p. subst p posted.
  pose proof (new_date_first _ _ _ _ Hd) as Hp.
  pose proof (new_date_inr _ _ _ _ Hd) as ->.
  destruct (upsert_run db school_id year month date request token _ _
              Hw Hp Hd) as (i & v & tr & Hrun & Hfind' & Hadd & _).
  rewrite Hrun. unfold database_after, trace_of. cbn [fst snd].
  pose proof Hfind' as (_ & Hk1 & Hk2 & Hk3)%find_voucher_Some.
  exists i, (update_voucher_fields request v).
  repeat (split; [assumption|]).
  rewrite Hadd, Hk1, Hk2, Hk3. apply rows_of_request_tagged.
Qed.

Lemma matches_month_stmt p n linked_category (v : DisbursementVoucher) :
  matches (month_stmt p n linked_category) v = true
  ↔ listed p n linked_category v.
Proof.
  unfold month_stmt, listed, matches, where_, select_DisbursementVoucher.
  destruct linked_category as [[|a c]|]; cbn;
    rewrite ?andb_true_iff, ?bool_decide_eq_true;
    intuition congruence.
Qed.

(** C4 (amended). For a valid (year, month) and a caller allowed to read,
    the month listing returns, in table order, the responses of exactly
    the vouchers whose parent is the first day of that month and whose
    school is the given one; when a non-empty [linked_category] is given,
    only those among them whose linked liquidation category is that very
    string.  Without a category, or with the empty string, nothing is
    narrowed. *)
Theorem C4_month_listing db school_id year month token linked_category p :
  datetime.new_date year month 1 = inr p →
  authorized db token "reports:local:read" →
  p = datetime.mkdate year month 1
  ∧ result_of (handle (get_disbursement_vouchers_for_month
                         school_id year month token linked_category) db)
    = inr (response_of db
             <$> filter (listed p school_id linked_category) (vouchers db)).
Proof.
  intros Hp Hr. split; [now apply new_date_inr in Hp|].
  rewrite (list_run _ _ _ _ _ _ _ Hr Hp). unfold result_of. cbn [fst].
  do 2 f_equal. apply list_filter_iff. intros v.
  apply matches_month_stmt.
Qed.

(** C10. The month listing called with the empty string as
    [linked_category] is the month listing called without one: same
    result, same database, same operations, on every database.  For a
    valid (year, month) and a caller allowed to read, what it returns are
    the responses of all vouchers of that month and school, whatever their
    linked category, or none. *)
Theorem C10_empty_category_is_no_filter db school_id year month token :
  handle (get_disbursement_vouchers_for_month
            school_id year month token (Some "")) db
  = handle (get_disbursement_vouchers_for_month
              school_id year month token None) db
  ∧ ∀ p,
      datetime.new_date year month 1 = inr p →
      authorized db token "reports:local:read" →
      result_of (handle (get_disbursement_vouchers_for_month
                           school_id year month token (Some "")) db)
      = inr (response_of db
               <$> filter (λ v, dv_parent v = p ∧ dv_schoolId v = school_id)
                     (vouchers db)).
Proof.
  split; [reflexivity|]. intros p Hp Hr.
  rewrite (list_run _ _ _ _ _ _ _ Hr Hp). unfold result_of. cbn [fst].
  do 2 f_equal. apply list_filter_iff. intros v.
  rewrite matches_month_stmt. unfold listed. cbn. intuition discriminate.
Qed.

(** A refused date is refused with a [ValueError] or an [OverflowError];
    with a [ValueError] when the three components fit a C int. *)
Lemma new_date_inl y m d e :
  datetime.new_date y m d = inl e →
  (∃ msg, e = ValueError msg ∨ e = OverflowError msg)
  ∧ (datetime.INT_MIN ≤ y ≤ datetime.INT_MAX →
     datetime.INT_MIN ≤ m ≤ datetime.INT_MAX →
     datetime.INT_MIN ≤ d ≤ datetime.INT_MAX →
     ∃ msg, e = ValueError msg).
Proof.
  unfold datetime.new_date.
  destruct (datetime.as_c_int y) as [ey|] eqn:Hy.
  { intros [= <-]. apply as_c_int_Some in Hy as Hk. destruct Hk as [msg ->].
    split; [eauto|]. intros Hfit%as_c_int_None. congruence. }
  destruct (datetime.as_c_int m) as [em|] eqn:Hm.
  { intros [= <-]. apply as_c_int_Some in Hm as Hk. destruct Hk as [msg ->].
    split; [eauto|]. intros _ Hfit%as_c_int_None. congruence. }
  destruct (datetime.as_c_int d) as [ed|] eqn:Hd.
  { intros [= <-]. apply as_c_int_Some in Hd as Hk. destruct Hk as [msg ->].
    split; [eauto|]. intros _ _ Hfit%as_c_int_None. congruence. }
  repeat case_match; intros [= <-]; eauto.
Qed.

Lemma upsert_invalid_date_run db school_id year month date request token e :
  datetime.new_date year month date = inl e →
  authorized db token "reports:local:write" →
  ∃ e',
    handle (create_or_update_disbursement_voucher
              school_id year month date request token) db = (inl e', db, [])
    ∧ (e' = e ∨ datetime.new_date year month 1 = inl e')
    ∧ (∀ p, datetime.new_date year month 1 = inr p → e' = e).
Proof.
  intros He (u & Hu & Hw).
  unfold handle, open_session, create_or_update_disbursement_voucher,
    db_get_user, db_verify_user_permission.
  step. rewrite Hu. step. rewrite Hw.
  destruct (datetime.new_date year month 1) as [e1|p] eqn:Hp; step.
  - exists e1. split; [reflexivity|]. split; [now right|discriminate].
  - rewrite He. exists e. split; [reflexivity|].
    split; [now left|reflexivity].
Qed.

Lemma get_invalid_date_run db school_id year month date token e :
  datetime.new_date year month date = inl e →
  authorized db token "reports:local:read" →
  ∃ e',
    handle (get_disbursement_voucher school_id year month date token) db
    = (inl e', db, [])
    ∧ (e' = e ∨ datetime.new_date year month 1 = inl e')
    ∧ (∀ p, datetime.new_date year month 1 = inr p → e' = e).
Proof.
  intros He (u & Hu & Hr).
  unfold handle, open_session, get_disbursement_voucher,
    db_get_user, db_verify_user_permission.
  step. rewrite Hu. step. rewrite Hr.
  destruct (datetime.new_date year month 1) as [e1|p] eqn:Hp; step.
  - exists e1. split; [reflexivity|]. split; [now right|discriminate].
  - rewrite He. exists e. split; [reflexivity|].
    split; [now left|reflexivity].
Qed.

Lemma refused_date_kind year month date e e' :
  datetime.new_date year month date = inl e →
  e' = e ∨ datetime.new_date year month 1 = inl e' →
  (∃ msg, e' = ValueError msg ∨ e' = OverflowError msg)
  ∧ (datetime.INT_MIN ≤ year ≤ datetime.INT_MAX →
     datetime.INT_MIN ≤ month ≤ datetime.INT_MAX →
     datetime.INT_MIN ≤ date ≤ datetime.INT_MAX →
     ∃ msg, e' = ValueError msg)
  ∧ http_status e' = HTTP_500_INTERNAL_SERVER_ERROR.
Proof.
  intros He [->|He1].
  - destruct (new_date_inl _ _ _ _ He) as ((msg & [->| ->]) & Hfit);
      repeat split; eauto.
  - destruct (new_date_inl _ _ _ _ He1) as ((msg & [->| ->]) & Hfit);
      repeat split; eauto; intros Hy Hm _; apply Hfit; try assumption;
      unfold datetime.INT_MIN, datetime.INT_MAX; lia.
Qed.

(** C5 (amended). For a (year, month, day) that is no calendar date, the
    upsert, for a caller allowed to write, and the get, for a caller
    allowed to read, each fail with the exception that constructing the
    dates raises: the one of the exact date when the first of the month
    can be constructed (so, for a day out of range in a valid month).  That
    exception is a [ValueError], or an [OverflowError] when a component
    does not fit a C int; it is no [HTTPException] and is answered with
    status 500.  Nothing was asked of the voucher tables before, and the
    database is as it was. *)
Theorem C5_invalid_date db school_id year month date request token token' e :
  datetime.new_date year month date = inl e →
  (authorized db token "reports:local:write" →
   ∃ e',
     handle (create_or_update_disbursement_voucher
               school_id year month date request token) db = (inl e', db, [])
     ∧ (∀ p, datetime.new_date year month 1 = inr p → e' = e)
     ∧ (∃ msg, e' = ValueError msg ∨ e' = OverflowError msg)
     ∧ (datetime.INT_MIN ≤ year ≤ datetime.INT_MAX →
        datetime.INT_MIN ≤ month ≤ datetime.INT_MAX →
        datetime.INT_MIN ≤ date ≤ datetime.INT_MAX →
        ∃ msg, e' = ValueError msg)
     ∧ http_status e' = HTTP_500_INTERNAL_SERVER_ERROR)
  ∧ (authorized db token' "reports:local:read" →
     ∃ e',
       handle (get_disbursement_voucher school_id year month date token') db
       = (inl e', db, [])
       ∧ (∀ p, datetime.new_date year month 1 = inr p → e' = e)
       ∧ (∃ msg, e' = ValueError msg ∨ e' = OverflowError msg)
       ∧ (datetime.INT_MIN ≤ year ≤ datetime.INT_MAX →
          datetime.INT_MIN ≤ month ≤ datetime.INT_MAX →
          datetime.INT_MIN ≤ date ≤ datetime.INT_MAX →
          ∃ msg, e' = ValueError msg)
       ∧ http_status e' = HTTP_500_INTERNAL_SERVER_ERROR).
Proof.
  intros He. split.
  - intros Hw.
    destruct (upsert_invalid_date_run db school_id year month date request
                token e He Hw) as (e' & Hrun & Hk & Hsame).
    destruct (refused_date_kind _ _ _ _ _ He Hk) as (Hkind & Hfit & Hs).
    exists e'. repeat split; assumption.
  - intros Hr.
    destruct (get_invalid_date_run db school_id year month date
                token' e He Hr) as (e' & Hrun & Hk & Hsame).
    destruct (refused_date_kind _ _ _ _ _ He Hk) as (Hkind & Hfit & Hs).
    exists e'. repeat split; assumption.
Qed.

Lemma loads_read (vs : list DisbursementVoucher) :
  Forall (λ e, is_read e = true) (vs ≫= loads).
Proof.
  induction vs as [|v vs IH]; cbn; [constructor|].
  repeat (constructor; [reflexivity|]). exact IH.
Qed.

Lemma get_read_only db school_id year month date token :
  let got :=
    handle (get_disbursement_voucher school_id year month date token) db in
  database_after got = db ∧ Forall (λ e, is_read e = true) (trace_of got).
Proof.
  unfold handle, open_session, get_disbursement_voucher,
    db_get_user, db_verify_user_permission, exec_first,
    database_after, trace_of.
  step. destruct (get_user db token) as [e|user]; step;
    [split; [reflexivity|constructor]|].
  destruct (verify_user_permission db user _) as [e|[]]; step;
    [split; [reflexivity|constructor]|].
  destruct (datetime.new_date year month 1) as [e|p]; step;
    [split; [reflexivity|constructor]|].
  destruct (datetime.new_date year month date) as [e|d]; step;
    [split; [reflexivity|constructor]|].
  destruct (list_find _ _) as [[i v]|].
  - rewrite build_response_run. cbn.
    split; [reflexivity|]. repeat (constructor; [reflexivity|]). constructor.
  - cbn. split; [reflexivity|]. repeat constructor.
Qed.

Lemma list_read_only db school_id year month token linked_category :
  let got :=
    handle (get_disbursement_vouchers_for_month
              school_id year month token linked_category) db in
  database_after got = db ∧ Forall (λ e, is_read e = true) (trace_of got).
Proof.
  unfold handle, open_session, get_disbursement_vouchers_for_month,
    db_get_user, db_verify_user_permission, exec_all,
    database_after, trace_of.
  step. destruct (get_user db token) as [e|user]; step;
    [split; [reflexivity|constructor]|].
  destruct (verify_user_permission db user _) as [e|[]]; step;
    [split; [reflexivity|constructor]|].
  destruct (datetime.new_date year month 1) as [e|p]; step;
    [split; [reflexivity|constructor]|].
  rewrite mapM_build_response. cbn.
  split; [reflexivity|]. constructor; [reflexivity|]. apply loads_read.
Qed.

(** C7. On every database and every input, whether the caller is turned
    away, the date is refused, no voucher is found or a response is
    returned: the get and the month listing leave the committed database
    as it was, and every operation they issue is a read (a select, a
    relationship load); none is an insert, a delete, an attribute update
    or a commit. *)
Theorem C7_reads_do_not_write db school_id year month date token
    linked_category :
  let got :=
    handle (get_disbursement_voucher school_id year month date token) db in
  let listing :=
    handle (get_disbursement_vouchers_for_month
              school_id year month token linked_category) db in
  database_after got = db
  ∧ Forall (λ e, is_read e = true) (trace_of got)
  ∧ database_after listing = db
  ∧ Forall (λ e, is_read e = true) (trace_of listing).
Proof.
  intros got listing.
  destruct (get_read_only db school_id year month date token) as [? ?].
  destruct (list_read_only db school_id year month token linked_category)
    as [? ?].
  auto.
Qed.

(** C8. Each handler first resolves the token and checks its scope:
    "reports:local:write" for the upsert, "reports:local:read" for the get
    and the month listing.  When the caller is turned away, at resolving
    the token or at that check, the handler fails with the very exception
    the helper raised; no operation was issued against the voucher tables
    and the database is as it was. *)
Theorem C8_turned_away_before_store db school_id year month date request
    linked_category token :
  (∀ e,
     auth_fails db token "reports:local:write" e →
     handle (create_or_update_disbursement_voucher
               school_id year month date request token) db = (inl e, db, []))
  ∧ (∀ e,
       auth_fails db token "reports:local:read" e →
       handle (get_disbursement_voucher school_id year month date token) db
       = (inl e, db, [])
       ∧ handle (get_disbursement_vouchers_for_month
                   school_id year month token linked_category) db
         = (inl e, db, [])).
Proof.
  unfold handle, open_session, create_or_update_disbursement_voucher,
    get_disbursement_voucher, get_disbursement_vouchers_for_month,
    db_get_user, db_verify_user_permission.
  step.
  split; intros e [Hf|(u & Hu & Hf)];
    rewrite ?Hf, ?Hu; step; rewrite ?Hf; auto.
Qed.

(** ** Further properties of the handlers *)

(** *** Keys and ownership *)

Lemma entry_of_key (v : DisbursementVoucher) e :
  entry_of v e ↔ row_key (EntryRow e) = voucher_key v.
Proof.
  unfold entry_of, row_key, voucher_key. split.
  - intros (-> & -> & ->). reflexivity.
  - intros [= -> -> ->]. repeat split.
Qed.

Lemma accounting_entry_of_key (v : DisbursementVoucher) e :
  accounting_entry_of v e ↔ row_key (AccountingEntryRow e) = voucher_key v.
Proof.
  unfold accounting_entry_of, row_key, voucher_key. split.
  - intros (-> & -> & ->). reflexivity.
  - intros [= -> -> ->]. repeat split.
Qed.

Lemma certified_by_of_key (v : DisbursementVoucher) c :
  certified_by_of v c ↔ row_key (CertifiedByRow c) = voucher_key v.
Proof.
  unfold certified_by_of, row_key, voucher_key. split.
  - intros (-> & -> & ->). reflexivity.
  - intros [= -> -> ->]. repeat split.
Qed.

Lemma matches_voucher_key p d n (v : DisbursementVoucher) :
  matches (voucher_stmt p d n) v = true ↔ voucher_key v = (p, d, n).
Proof.
  rewrite matches_voucher_stmt. unfold voucher_key. split.
  - intros (-> & -> & ->). reflexivity.
  - intros [= -> -> ->]. repeat split.
Qed.

Lemma find_voucher_None_key db p d n :
  find_voucher db p d n = None ↔ (p, d, n) ∉ voucher_key <$> vouchers db.
Proof.
  unfold find_voucher. rewrite list_find_None, Forall_forall.
  rewrite list_elem_of_fmap. split.
  - intros Hno (v & Hk & Hv). apply (Hno v Hv).
    now apply matches_voucher_key.
  - intros Hno v Hv Hm. apply Hno. exists v.
    split; [|assumption]. symmetry. now apply matches_voucher_key.
Qed.

Lemma find_voucher_Some_key db p d n i v :
  find_voucher db p d n = Some (i, v) →
  vouchers db !! i = Some v ∧ voucher_key v = (p, d, n).
Proof.
  intros (Hi & <- & <- & <-)%find_voucher_Some. split; [assumption|reflexivity].
Qed.

Lemma keys_alter request (l : list DisbursementVoucher) i :
  voucher_key <$> alter (update_voucher_fields request) i l
  = voucher_key <$> l.
Proof.
  revert i. induction l as [|v l IH]; intros [|i]; cbn; try reflexivity.
  f_equal. apply IH.
Qed.

(** The keys of the voucher table after an upsert: those before, and the
    requested key at the end when it was not there. *)
Lemma keys_upserted p d n request db :
  voucher_key <$> vouchers (upserted p d n request db)
  = (voucher_key <$> vouchers db)
    ++ match find_voucher db p d n with
       | Some _ => []
       | None => [(p, d, n)]
       end.
Proof.
  unfold upserted. destruct (find_voucher db p d n) as [[i v]|]; cbn [vouchers].
  - now rewrite keys_alter, app_nil_r.
  - now rewrite fmap_app.
Qed.

Lemma no_orphans_tables db :
  no_orphans db
  ↔ Forall (λ e, row_key (EntryRow e) ∈ voucher_key <$> vouchers db)
      (entries db)
    ∧ Forall (λ e, row_key (AccountingEntryRow e)
                   ∈ voucher_key <$> vouchers db) (accounting_entries db)
    ∧ Forall (λ c, row_key (CertifiedByRow c) ∈ voucher_key <$> vouchers db)
        (certified_by db).
Proof.
  unfold no_orphans, all_rows. now rewrite !Forall_app, !Forall_fmap.
Qed.

(** *** The get, stated on the tables *)

Lemma shows_voucher_response db (v : DisbursementVoucher) :
  shows_voucher v (response_of db v).
Proof. repeat split. Qed.

(** The children a response lists, as the rows of a key. *)
Lemma response_children db p d n (v : DisbursementVoucher) :
  voucher_key v = (p, d, n) →
  resp_entries (response_of db v)
  = entry_fields
      <$> filter (λ e, row_key (EntryRow e) = (p, d, n)) (entries db)
  ∧ resp_accountingEntries (response_of db v)
    = accounting_entry_fields
        <$> filter (λ e, row_key (AccountingEntryRow e) = (p, d, n))
              (accounting_entries db)
  ∧ resp_certifiedBy (response_of db v)
    = dvc_user
        <$> filter (λ c, row_key (CertifiedByRow c) = (p, d, n))
              (certified_by db).
Proof.
  intros Hk. unfold response_of, make_response.
  cbn [resp_entries resp_accountingEntries resp_certifiedBy].
  rewrite (list_filter_iff (entry_of v)
             (λ e, row_key (EntryRow e) = (p, d, n)))
    by (intros e; rewrite entry_of_key, Hk; reflexivity).
  rewrite (list_filter_iff (accounting_entry_of v)
             (λ e, row_key (AccountingEntryRow e) = (p, d, n)))
    by (intros e; rewrite accounting_entry_of_key, Hk; reflexivity).
  rewrite (list_filter_iff (certified_by_of v)
             (λ c, row_key (CertifiedByRow c) = (p, d, n)))
    by (intros c; rewrite certified_by_of_key, Hk; reflexivity).
  repeat split.
Qed.

(** C3. For a valid date and a caller allowed to read, with p the first
    day of (year, month) and d the exact (year, month, day): if no row of
    the voucher table has parent p, date d and the given school, the get
    fails with an [HTTPException] of status 404 and the detail
    "Disbursement voucher not found."; if some row has, the get returns a
    response that shows a stored row of that key, field by field (key,
    header fields, report status), and lists the data of the entry,
    accounting-entry and certifier rows that carry that key. *)
Theorem C3_get_found_or_404 db school_id year month date token voucher_date :
  datetime.new_date year month date = inr voucher_date →
  authorized db token "reports:local:read" →
  let p := datetime.mkdate year month 1 in
  let d := datetime.mkdate year month date in
  let got :=
    result_of (handle (get_disbursement_voucher
                         school_id year month date token) db) in
  ((∀ v, v ∈ vouchers db → ¬ has_key p d school_id v) →
   got = inl (HTTPException 404 "Disbursement voucher not found.")
   ∧ ∀ e, got = inl e → http_status e = HTTP_404_NOT_FOUND)
  ∧ ((∃ v, v ∈ vouchers db ∧ has_key p d school_id v) →
     ∃ v resp,
       v ∈ vouchers db ∧ has_key p d school_id v
       ∧ got = inr resp
       ∧ shows_voucher v resp
       ∧ resp_entries resp
         ≡ₚ entry_fields
              <$> filter (λ e, row_key (EntryRow e) = (p, d, school_id))
                    (entries db)
       ∧ resp_accountingEntries resp
         ≡ₚ accounting_entry_fields
              <$> filter (λ e, row_key (AccountingEntryRow e)
                               = (p, d, school_id))
                    (accounting_entries db)
       ∧ resp_certifiedBy resp
         ≡ₚ dvc_user
              <$> filter (λ c, row_key (CertifiedByRow c) = (p, d, school_id))
                    (certified_by db)).
Proof.
  intros Hd Hr p d got. subst got.
  pose proof (new_date_first _ _ _ _ Hd) as Hp.
  pose proof (new_date_inr _ _ _ _ Hd) as ->. fold p d in Hp, Hd |- *.
  rewrite (get_run _ _ _ _ _ _ _ _ Hr Hp Hd).
  destruct (find_voucher db p d school_id) as [[i v]|] eqn:Hfind.
  - pose proof (find_voucher_Some _ _ _ _ _ _ Hfind) as (Hi & Hk).
    assert (v ∈ vouchers db) as Hin by (apply list_elem_of_lookup; eauto).
    split.
    + intros Hnone. destruct (Hnone v Hin Hk).
    + intros _. exists v, (response_of db v).
      apply find_voucher_Some_key in Hfind as (_ & Hkey).
      destruct (response_children db p d school_id v Hkey) as (He & Ha & Hc).
      split; [exact Hin|]. split; [exact Hk|]. split; [reflexivity|].
      split; [apply shows_voucher_response|].
      rewrite He, Ha, Hc. repeat split; reflexivity.
  - split.
    + intros _. split; [reflexivity|]. intros e [= <-]. reflexivity.
    + intros (v & Hin & Hk1 & Hk2 & Hk3).
      apply find_voucher_None_key in Hfind. destruct Hfind.
      apply list_elem_of_fmap. exists v. split; [|exact Hin].
      unfold voucher_key. congruence.
Qed.

(** *** Every outcome of an upsert *)

Lemma upsert_outcomes db school_id year month date request token :
  let posted :=
    handle (create_or_update_disbursement_voucher
              school_id year month date request token) db in
  (∃ e, posted = (inl e, db, []))
  ∨ (∃ p d,
       datetime.new_date year month 1 = inr p
       ∧ datetime.new_date year month date = inr d
       ∧ authorized db token "reports:local:write"
       ∧ database_after posted = upserted p d school_id request db).
Proof.
  intros posted. subst posted.
  destruct (get_user db token) as [e|user] eqn:Hu.
  { left. exists e.
    unfold handle, open_session, create_or_update_disbursement_voucher,
      db_get_user. step. rewrite Hu. reflexivity. }
  destruct (verify_user_permission db user "reports:local:write")
    as [e|[]] eqn:Hv.
  { left. exists e.
    unfold handle, open_session, create_or_update_disbursement_voucher,
      db_get_user, db_verify_user_permission.
    step. rewrite Hu. step. rewrite Hv. reflexivity. }
  assert (authorized db token "reports:local:write") as Hw
    by (exists user; split; assumption).
  destruct (datetime.new_date year month date) as [e|d] eqn:Hd.
  { left.
    destruct (upsert_invalid_date_run db school_id year month date request
                token e Hd Hw) as (e' & Hrun & _).
    exists e'. exact Hrun. }
  right. exists (datetime.mkdate year month 1), d.
  pose proof (new_date_first _ _ _ _ Hd) as Hp.
  destruct (upsert_run db school_id year month date request token _ _
              Hw Hp Hd) as (i & v & tr & Hrun & _).
  rewrite Hrun. repeat split; assumption.
Qed.

Lemma key_in_upserted p d n request db :
  (p, d, n) ∈ voucher_key <$> vouchers (upserted p d n request db).
Proof.
  rewrite keys_upserted.
  destruct (find_voucher db p d n) as [[i v]|] eqn:Hfind.
  - apply find_voucher_Some_key in Hfind as (Hi & <-).
    rewrite app_nil_r. apply list_elem_of_fmap. exists v.
    split; [reflexivity|]. apply list_elem_of_lookup. eauto.
  - apply elem_of_app. right. apply list_elem_of_singleton. reflexivity.
Qed.

(** A row of a table after an upsert was there before or comes from the
    request. *)
Lemma rows_upserted_sub p d n request db :
  (∀ e, e ∈ entries (upserted p d n request db) →
        e ∈ entries db ∨ e ∈ make_entry p d n <$> req_entries request)
  ∧ (∀ e, e ∈ accounting_entries (upserted p d n request db) →
          e ∈ accounting_entries db
          ∨ e ∈ make_accounting_entry p d n <$> req_accountingEntries request)
  ∧ (∀ c, c ∈ certified_by (upserted p d n request db) →
          c ∈ certified_by db
          ∨ c ∈ make_certified_by p d n <$> req_certifiedBy request).
Proof.
  unfold upserted.
  destruct (find_voucher db p d n) as [[i v]|];
    cbn [entries accounting_entries certified_by];
    repeat split; intros x [Hx|Hx]%elem_of_app; auto;
    apply list_elem_of_filter in Hx as [_ Hx]; auto.
Qed.

Lemma unique_keys_upserted p d n request db :
  unique_keys db → unique_keys (upserted p d n request db).
Proof.
  intros Huniq. unfold unique_keys in *. rewrite keys_upserted.
  destruct (find_voucher db p d n) as [[i v]|] eqn:Hfind.
  - now rewrite app_nil_r.
  - apply NoDup_app. split; [assumption|]. split; [|apply NoDup_singleton].
    intros k Hk ->%list_elem_of_singleton.
    now apply find_voucher_None_key in Hfind.
Qed.

Lemma no_orphans_upserted p d n request db :
  no_orphans db → no_orphans (upserted p d n request db).
Proof.
  intros Hown.
  pose proof (key_in_upserted p d n request db) as Hk.
  assert (∀ k, k ∈ voucher_key <$> vouchers db →
               k ∈ voucher_key <$> vouchers (upserted p d n request db))
    as Hkeep.
  { intros k Hin. rewrite keys_upserted. apply elem_of_app. now left. }
  destruct (rows_upserted_sub p d n request db) as (He & Ha & Hc).
  apply no_orphans_tables in Hown as (Oe & Oa & Oc).
  rewrite Forall_forall in Oe. rewrite Forall_forall in Oa.
  rewrite Forall_forall in Oc.
  apply no_orphans_tables. repeat split; apply Forall_forall; intros x Hx.
  - destruct (He x Hx) as [Hold|(y & -> & _)%list_elem_of_fmap];
      [apply Hkeep, Oe, Hold|exact Hk].
  - destruct (Ha x Hx) as [Hold|(y & -> & _)%list_elem_of_fmap];
      [apply Hkeep, Oa, Hold|exact Hk].
  - destruct (Hc x Hx) as [Hold|(y & -> & _)%list_elem_of_fmap];
      [apply Hkeep, Oc, Hold|exact Hk].
Qed.

(** X3. Whatever the input and the outcome, an upsert keeps the voucher
    keys distinct: on a table where no two rows share a
    (parent, date, schoolId) key, none do afterwards. *)
Theorem X3_upsert_keeps_keys_unique db school_id year month date request token :
  unique_keys db →
  unique_keys (database_after
                 (handle (create_or_update_disbursement_voucher
                            school_id year month date request token) db)).
Proof.
  intros Huniq.
  destruct (upsert_outcomes db school_id year month date request token)
    as [(e & ->)|(p & d & _ & _ & _ & ->)]; [exact Huniq|].
  now apply unique_keys_upserted.
Qed.

(** X4. Whatever the input and the outcome, an upsert leaves no child row
    without a voucher: if every entry, accounting-entry and certifier row
    carries the key of a stored voucher before, so it is afterwards. *)
Theorem X4_upsert_keeps_rows_owned db school_id year month date request token :
  no_orphans db →
  no_orphans (database_after
                (handle (create_or_update_disbursement_voucher
                           school_id year month date request token) db)).
Proof.
  intros Hown.
  destruct (upsert_outcomes db school_id year month date request token)
    as [(e & ->)|(p & d & _ & _ & _ & ->)]; [exact Hown|].
  now apply no_orphans_upserted.
Qed.

(** *** The children an upsert leaves *)

(** Under a key no voucher has, a database without orphans has no child
    row. *)
Lemma fresh_key_no_rows db p d n :
  no_orphans db → find_voucher db p d n = None →
  Forall (λ e, row_key (EntryRow e) ≠ (p, d, n)) (entries db)
  ∧ Forall (λ e, row_key (AccountingEntryRow e) ≠ (p, d, n))
      (accounting_entries db)
  ∧ Forall (λ c, row_key (CertifiedByRow c) ≠ (p, d, n)) (certified_by db).
Proof.
  intros (Oe & Oa & Oc)%no_orphans_tables Hfind%find_voucher_None_key.
  repeat split; eapply Forall_impl; try eassumption;
    intros x Hx Hk; cbn beta in Hx; rewrite Hk in Hx; contradiction.
Qed.

Lemma upserted_tables p d n request db (v : DisbursementVoucher) :
  voucher_key v = (p, d, n) →
  is_Some (find_voucher db p d n) ∨ no_orphans db →
  filter (entry_of v) (entries (upserted p d n request db))
  = make_entry p d n <$> req_entries request
  ∧ filter (accounting_entry_of v)
      (accounting_entries (upserted p d n request db))
    = make_accounting_entry p d n <$> req_accountingEntries request
  ∧ filter (certified_by_of v) (certified_by (upserted p d n request db))
    = make_certified_by p d n <$> req_certifiedBy request.
Proof.
  intros Hk Hcase. pose proof Hk as [= Hp Hd Hn].
  destruct (rows_of_request_keyed p d n request v Hp Hd Hn) as (He & Ha & Hc).
  unfold upserted.
  destruct (find_voucher db p d n) as [[i v0]|] eqn:Hfind;
    cbn [entries accounting_entries certified_by].
  - apply find_voucher_Some_key in Hfind as (_ & Hk0).
    rewrite (list_filter_iff (λ e, ¬ entry_of v0 e) (λ e, ¬ entry_of v e))
      by (intros e; rewrite !entry_of_key, Hk0, Hk; reflexivity).
    rewrite (list_filter_iff (λ e, ¬ accounting_entry_of v0 e)
               (λ e, ¬ accounting_entry_of v e))
      by (intros e; rewrite !accounting_entry_of_key, Hk0, Hk; reflexivity).
    rewrite (list_filter_iff (λ c, ¬ certified_by_of v0 c)
               (λ c, ¬ certified_by_of v c))
      by (intros c; rewrite !certified_by_of_key, Hk0, Hk; reflexivity).
    now rewrite !filter_replaced.
  - destruct Hcase as [[? [=]]|Hown].
    destruct (fresh_key_no_rows db p d n Hown Hfind) as (Fe & Fa & Fc).
    rewrite !filter_app.
    rewrite (filter_all (entry_of v) _ He).
    rewrite (filter_all (accounting_entry_of v) _ Ha).
    rewrite (filter_all (certified_by_of v) _ Hc).
    rewrite (filter_none (entry_of v)), (filter_none (accounting_entry_of v)),
      (filter_none (certified_by_of v)); [done|..];
      eapply Forall_impl; try eassumption; intros x Hx; cbn beta in *;
      rewrite ?entry_of_key, ?accounting_entry_of_key, ?certified_by_of_key;
      congruence.
Qed.

Lemma entry_data_round_trip p d n (xs : list DisbursementVoucherEntryData) :
  entry_data_of <$> (make_entry p d n <$> xs) = xs.
Proof.
  rewrite <- list_fmap_compose. rewrite <- (list_fmap_id xs) at 2.
  apply list_fmap_ext. intros _ [? ? ? ? ?] _. reflexivity.
Qed.

Lemma accounting_entry_data_round_trip p d n
    (xs : list DisbursementVoucherAccountingEntryData) :
  accounting_entry_data_of <$> (make_accounting_entry p d n <$> xs) = xs.
Proof.
  rewrite <- list_fmap_compose. rewrite <- (list_fmap_id xs) at 2.
  apply list_fmap_ext. intros _ [? ? ? ?] _. reflexivity.
Qed.

Lemma certified_by_round_trip p d n (xs : list string) :
  dvc_user <$> (make_certified_by p d n <$> xs) = xs.
Proof.
  rewrite <- list_fmap_compose. rewrite <- (list_fmap_id xs) at 2.
  apply list_fmap_ext. intros _ ? _. reflexivity.
Qed.

(** X1. For a valid date and a caller allowed to write, the response an
    upsert returns is the response a get of the same key returns right
    after it (for a caller allowed to read). *)
Theorem X1_upsert_returns_what_get_returns db school_id year month date
    request token token' voucher_date :
  datetime.new_date year month date = inr voucher_date →
  authorized db token "reports:local:write" →
  let posted :=
    handle (create_or_update_disbursement_voucher
              school_id year month date request token) db in
  authorized (database_after posted) token' "reports:local:read" →
  (∃ resp, result_of posted = inr resp)
  ∧ result_of (handle (get_disbursement_voucher
                         school_id year month date token')
                 (database_after posted))
    = result_of posted.
Proof.
  intros Hd Hw posted Hr. subst posted.
  pose proof (new_date_first _ _ _ _ Hd) as Hp.
  destruct (upsert_run db school_id year month date request token _ _
              Hw Hp Hd) as (i & v & tr & Hrun & Hfind' & _).
  rewrite Hrun in *. unfold database_after, result_of in *.
  cbn [fst snd] in *. split; [eauto|].
  rewrite (get_run _ school_id year month date token' _ _ Hr Hp Hd).
  now rewrite Hfind'.
Qed.

(** X2. For a valid date and a caller allowed to write, on a database in
    which every child row belongs to a voucher, the response of an upsert
    carries the submitted entries, accounting entries and certifiers, each
    as often as submitted and nothing else, whether the voucher was
    created or updated.  Nothing is said of their order. *)
Theorem X2_upsert_returns_submitted_children db school_id year month date
    request token voucher_date :
  datetime.new_date year month date = inr voucher_date →
  authorized db token "reports:local:write" →
  no_orphans db →
  ∃ resp,
    result_of (handle (create_or_update_disbursement_voucher
                         school_id year month date request token) db)
    = inr resp
    ∧ resp_entries resp ≡ₚ req_entries request
    ∧ resp_accountingEntries resp ≡ₚ req_accountingEntries request
    ∧ resp_certifiedBy resp ≡ₚ req_certifiedBy request.
Proof.
  intros Hd Hw Hown.
  pose proof (new_date_first _ _ _ _ Hd) as Hp.
  destruct (upsert_run db school_id year month date request token _ _
              Hw Hp Hd) as (i & v & tr & Hrun & Hfind' & _).
  rewrite Hrun. unfold result_of. cbn [fst].
  eexists. split; [reflexivity|].
  apply find_voucher_Some_key in Hfind' as (_ & Hk).
  destruct (upserted_tables _ _ school_id request db _ Hk (or_intror Hown))
    as (He & Ha & Hc).
  unfold response_of, make_response.
  cbn [resp_entries resp_accountingEntries resp_certifiedBy].
  rewrite He, Ha, Hc.
  now rewrite entry_data_round_trip, accounting_entry_data_round_trip,
    certified_by_round_trip.
Qed.

(** *** What an upsert leaves alone *)

Lemma list_find_alter_other {T} (P : T → Prop) `{∀ x, Decision (P x)}
    (f : T → T) (l : list T) i x :
  l !! i = Some x → ¬ P x → ¬ P (f x) →
  list_find P (alter f i l) = list_find P l.
Proof.
  revert i. induction l as [|a l IH]; intros [|i] Hi Hx Hfx;
    try discriminate; cbn in *.
  - injection Hi as ->. now rewrite !decide_False.
  - destruct (decide (P a)); [reflexivity|].
    now rewrite (IH i Hi Hx Hfx).
Qed.

Lemma find_voucher_upserted_other p d n request db p' d' n' :
  (p', d', n') ≠ (p, d, n) →
  find_voucher (upserted p d n request db) p' d' n'
  = find_voucher db p' d' n'.
Proof.
  intros Hne. unfold upserted.
  destruct (find_voucher db p d n) as [[i v]|] eqn:Hfind;
    unfold find_voucher; cbn [vouchers].
  - apply find_voucher_Some_key in Hfind as (Hi & Hk).
    apply (list_find_alter_other _ _ _ _ v Hi); cbn beta;
      rewrite matches_voucher_key.
    + congruence.
    + unfold voucher_key in *. cbn. congruence.
  - destruct (list_find _ (vouchers db)) as [[j w]|] eqn:Hold.
    + now apply list_find_app_l.
    + rewrite list_find_app_r by assumption. cbn [list_find].
      rewrite decide_False; [reflexivity|].
      rewrite matches_voucher_key. unfold voucher_key. cbn. congruence.
Qed.

Lemma filter_other {T} (P Q : T → Prop) `{∀ x, Decision (P x)}
    `{∀ x, Decision (Q x)} (old new : list T) :
  (∀ x, P x → ¬ Q x) → Forall Q new →
  filter P (filter (λ x, ¬ Q x) old ++ new) = filter P old
  ∧ filter P (old ++ new) = filter P old.
Proof.
  intros Hdis Hnew.
  assert (filter P new = []) as Hnone.
  { apply filter_none. eapply Forall_impl; [exact Hnew|].
    intros x Hq Hp. now apply (Hdis x). }
  rewrite !filter_app, Hnone, !app_nil_r. split; [|reflexivity].
  rewrite list_filter_filter. apply list_filter_iff.
  intros x. split; [tauto|]. intros Hp. split; [assumption|]. now apply Hdis.
Qed.

Lemma response_of_upserted_other p d n request db (w : DisbursementVoucher) :
  voucher_key w ≠ (p, d, n) →
  response_of (upserted p d n request db) w = response_of db w.
Proof.
  intros Hne. unfold response_of, upserted.
  destruct (find_voucher db p d n) as [[i v]|] eqn:Hfind;
    cbn [entries accounting_entries certified_by].
  - apply find_voucher_Some_key in Hfind as (_ & Hk).
    pose proof Hk as [= Hp Hd Hn].
    destruct (rows_of_request_keyed p d n request v Hp Hd Hn)
      as (He & Ha & Hc).
    rewrite (proj1 (filter_other (entry_of w) (entry_of v) _ _
                      ltac:(intros e; rewrite !entry_of_key; congruence) He)).
    rewrite (proj1 (filter_other (accounting_entry_of w)
                      (accounting_entry_of v) _ _
                      ltac:(intros e; rewrite !accounting_entry_of_key;
                            congruence) Ha)).
    rewrite (proj1 (filter_other (certified_by_of w) (certified_by_of v) _ _
                      ltac:(intros c; rewrite !certified_by_of_key;
                            congruence) Hc)).
    reflexivity.
  - set (v := new_DisbursementVoucher p d n).
    destruct (rows_of_request_keyed p d n request v eq_refl eq_refl eq_refl)
      as (He & Ha & Hc).
    assert (voucher_key v = (p, d, n)) as Hk by reflexivity.
    rewrite (proj2 (filter_other (entry_of w) (entry_of v) (entries db) _
                      ltac:(intros e; rewrite !entry_of_key; congruence) He)).
    rewrite (proj2 (filter_other (accounting_entry_of w)
                      (accounting_entry_of v) (accounting_entries db) _
                      ltac:(intros e; rewrite !accounting_entry_of_key;
                            congruence) Ha)).
    rewrite (proj2 (filter_other (certified_by_of w) (certified_by_of v)
                      (certified_by db) _
                      ltac:(intros c; rewrite !certified_by_of_key;
                            congruence) Hc)).
    reflexivity.
Qed.

(** X5. An upsert for one key changes nothing of what a get returns for any
    other key: for valid dates, a caller allowed to write, and a reader
    allowed to read before and after, the get of a different
    (school, year, month, day) returns after the upsert what it returned
    before, be it a response or the 404. *)
Theorem X5_upsert_leaves_other_keys db school_id year month date request token
    voucher_date school_id' year' month' date' token' voucher_date' :
  datetime.new_date year month date = inr voucher_date →
  authorized db token "reports:local:write" →
  datetime.new_date year' month' date' = inr voucher_date' →
  (school_id', year', month', date') ≠ (school_id, year, month, date) →
  let posted :=
    handle (create_or_update_disbursement_voucher
              school_id year month date request token) db in
  authorized db token' "reports:local:read" →
  authorized (database_after posted) token' "reports:local:read" →
  result_of (handle (get_disbursement_voucher
                       school_id' year' month' date' token')
               (database_after posted))
  = result_of (handle (get_disbursement_voucher
                         school_id' year' month' date' token') db).
Proof.
  intros Hd Hw Hd' Hne posted Hr Hr'. subst posted.
  pose proof (new_date_first _ _ _ _ Hd) as Hp.
  pose proof (new_date_first _ _ _ _ Hd') as Hp'.
  pose proof (new_date_inr _ _ _ _ Hd) as ->.
  pose proof (new_date_inr _ _ _ _ Hd') as ->.
  destruct (upsert_run db school_id year month date request token _ _
              Hw Hp Hd) as (i & v & tr & Hrun & _).
  rewrite Hrun in *. unfold database_after in *. cbn [fst snd] in *.
  rewrite (get_run _ _ _ _ _ _ _ _ Hr' Hp' Hd').
  rewrite (get_run _ _ _ _ _ _ _ _ Hr Hp' Hd').
  assert ((datetime.mkdate year' month' 1, datetime.mkdate year' month' date',
           school_id')
          ≠ (datetime.mkdate year month 1, datetime.mkdate year month date,
             school_id)) as Hk by congruence.
  rewrite (find_voucher_upserted_other _ _ _ _ _ _ _ _ Hk).
  destruct (find_voucher db _ _ school_id') as [[j w]|] eqn:Hfind;
    [|reflexivity].
  apply find_voucher_Some_key in Hfind as (_ & Hkw).
  unfold result_of. cbn [fst]. f_equal.
  apply response_of_upserted_other. congruence.
Qed.

(** X6. Whatever the input and the outcome, an upsert changes at most one
    row of the voucher table: there is a position such that every other
    position holds afterwards what it held before, and the table keeps its
    length or grows by the one row at that position. *)
Theorem X6_upsert_touches_one_voucher_row db school_id year month date
    request token :
  let db' :=
    database_after
      (handle (create_or_update_disbursement_voucher
                 school_id year month date request token) db) in
  ∃ i,
    (∀ j, j ≠ i → vouchers db' !! j = vouchers db !! j)
    ∧ (length (vouchers db') = length (vouchers db)
       ∨ (i = length (vouchers db)
          ∧ length (vouchers db') = S (length (vouchers db)))).
Proof.
  intros db'. subst db'.
  destruct (upsert_outcomes db school_id year month date request token)
    as [(e & ->)|(p & d & _ & _ & _ & ->)].
  { exists 0%nat. split; [reflexivity|now left]. }
  unfold upserted.
  destruct (find_voucher db p d school_id) as [[i v]|]; cbn [vouchers].
  - exists i. split.
    + intros j Hj. now apply list_lookup_alter_ne.
    + left. apply length_alter.
  - exists (length (vouchers db)). split.
    + intros j Hj. destruct (decide (j < length (vouchers db))%nat).
      * now apply lookup_app_l.
      * rewrite !lookup_ge_None_2; [reflexivity|lia|].
        rewrite length_app. cbn. lia.
    + right. split; [reflexivity|]. rewrite length_app. cbn. lia.
Qed.

(** *** One transaction *)

(** X7. For a valid date and a caller allowed to write, an upsert commits
    exactly once: everything it adds, deletes or assigns comes before that
    commit, and what it issues after it are reads only (the refresh and the
    three relationship loads of the response). *)
Theorem X7_upsert_commits_once db school_id year month date request token
    voucher_date :
  datetime.new_date year month date = inr voucher_date →
  authorized db token "reports:local:write" →
  ∃ before after,
    trace_of (handle (create_or_update_disbursement_voucher
                        school_id year month date request token) db)
    = before ++ Commit :: after
    ∧ Forall (λ e, is_commit e = false) before
    ∧ Forall (λ e, is_read e = true) after.
Proof.
  intros Hd (user & Hu & Hv).
  pose proof (new_date_first _ _ _ _ Hd) as Hp.
  destruct (find_voucher db (datetime.mkdate year month 1) voucher_date
              school_id) as [[i v]|] eqn:Hfind.
  - rewrite (upsert_existing_run db school_id year month date request token
               user _ _ Hu Hv Hp Hd i v Hfind).
    unfold trace_of. cbn [snd]. rewrite !app_assoc.
    eexists _, _. split; [reflexivity|]. split.
    + rewrite !Forall_app, !Forall_fmap.
      repeat split; try (apply Forall_true; intros ?; reflexivity);
        repeat constructor.
    + repeat constructor.
  - rewrite (upsert_new_run db school_id year month date request token
               user _ _ Hu Hv Hp Hd Hfind).
    unfold trace_of. cbn [snd]. rewrite !app_assoc.
    eexists _, _. split; [reflexivity|]. split.
    + rewrite !Forall_app, !Forall_fmap.
      repeat split; try (apply Forall_true; intros ?; reflexivity);
        repeat constructor.
    + repeat constructor.
Qed.

(** *** The month listing and the get *)

(** X8. For a valid date and a caller allowed to read, whenever the get of
    (school, year, month, day) returns a response, the month listing of
    (school, year, month) without a category returns a list that contains
    that response. *)
Theorem X8_get_response_is_listed db school_id year month date token
    voucher_date resp :
  datetime.new_date year month date = inr voucher_date →
  authorized db token "reports:local:read" →
  result_of (handle (get_disbursement_voucher
                       school_id year month date token) db) = inr resp →
  ∃ l,
    result_of (handle (get_disbursement_vouchers_for_month
                         school_id year month token None) db) = inr l
    ∧ resp ∈ l.
Proof.
  intros Hd Hr.
  pose proof (new_date_first _ _ _ _ Hd) as Hp.
  rewrite (get_run _ _ _ _ _ _ _ _ Hr Hp Hd).
  rewrite (list_run _ _ _ _ _ _ _ Hr Hp).
  destruct (find_voucher db _ voucher_date school_id) as [[i v]|] eqn:Hfind;
    unfold result_of; cbn [fst]; intros [= <-].
  eexists. split; [reflexivity|].
  apply find_voucher_Some in Hfind as (Hi & Hk1 & _ & Hk3).
  apply list_elem_of_fmap. exists v. split; [reflexivity|].
  apply list_elem_of_filter. split.
  - apply matches_month_stmt. repeat split; assumption.
  - apply list_elem_of_lookup. eauto.
Qed.

(** X9. For a valid (year, month) and a caller allowed to read, the
    responses of the listing with a category are among those of the
    listing without one, none more often than there: as multisets, the
    first is included in the second.  Nothing is said of their order. *)
Theorem X9_category_listing_is_included db school_id year month token
    linked_category p :
  datetime.new_date year month 1 = inr p →
  authorized db token "reports:local:read" →
  ∃ filtered all,
    result_of (handle (get_disbursement_vouchers_for_month
                         school_id year month token linked_category) db)
    = inr filtered
    ∧ result_of (handle (get_disbursement_vouchers_for_month
                           school_id year month token None) db)
      = inr all
    ∧ filtered ⊆+ all.
Proof.
  intros Hp Hr. rewrite !(list_run _ _ _ _ _ _ _ Hr Hp).
  unfold result_of. cbn [fst]. eexists _, _.
  split; [reflexivity|]. split; [reflexivity|].
  apply fmap_submseteq, sublist_submseteq.
  rewrite (list_filter_iff _ (λ v, listed p school_id linked_category v
                                   ∧ listed p school_id None v)).
  - rewrite <- list_filter_filter.
    rewrite (list_filter_iff (λ v, matches (month_stmt p school_id None) v
                                   = true)
               (listed p school_id None))
      by (intros v; apply matches_month_stmt).
    apply sublist_filter.
  - intros v. rewrite matches_month_stmt. unfold listed.
    cbn. intuition.
Qed.

Lemma new_date_overflow y m d e :
  ¬ (datetime.INT_MIN ≤ y ≤ datetime.INT_MAX)
  ∨ ¬ (datetime.INT_MIN ≤ m ≤ datetime.INT_MAX) →
  datetime.new_date y m d = inl e → ∃ msg, e = OverflowError msg.
Proof.
  intros Hbig. unfold datetime.new_date.
  destruct (datetime.as_c_int y) as [ey|] eqn:Hy.
  { intros [= <-]. now apply as_c_int_Some in Hy. }
  destruct (datetime.as_c_int m) as [em|] eqn:Hm.
  { intros [= <-]. now apply as_c_int_Some in Hm. }
  apply as_c_int_None in Hy. apply as_c_int_None in Hm. tauto.
Qed.

(** X10. For a caller allowed to read and a (year, month) for which no
    first day can be constructed, the month listing fails with the
    exception of that construction, before any operation on the voucher
    tables and with the database as it was.  The exception is a
    [ValueError] when year and month fit a C int and an [OverflowError]
    when one does not; either way it is answered with status 500. *)
Theorem X10_listing_invalid_month db school_id year month token
    linked_category e :
  datetime.new_date year month 1 = inl e →
  authorized db token "reports:local:read" →
  handle (get_disbursement_vouchers_for_month
            school_id year month token linked_category) db = (inl e, db, [])
  ∧ (datetime.INT_MIN ≤ year ≤ datetime.INT_MAX →
     datetime.INT_MIN ≤ month ≤ datetime.INT_MAX →
     ∃ msg, e = ValueError msg)
  ∧ (¬ (datetime.INT_MIN ≤ year ≤ datetime.INT_MAX)
     ∨ ¬ (datetime.INT_MIN ≤ month ≤ datetime.INT_MAX) →
     ∃ msg, e = OverflowError msg)
  ∧ http_status e = HTTP_500_INTERNAL_SERVER_ERROR.
Proof.
  intros He (u & Hu & Hr).
  destruct (new_date_inl _ _ _ _ He) as ((msg & Hkind) & Hfit).
  split; [|split; [|split]].
  - unfold handle, open_session, get_disbursement_vouchers_for_month,
      db_get_user, db_verify_user_permission.
    step. rewrite Hu. step. now rewrite Hr, He.
  - intros Hy Hm. apply Hfit; try assumption.
    unfold datetime.INT_MIN, datetime.INT_MAX. lia.
  - intros Hbig. exact (new_date_overflow _ _ _ _ Hbig He).
  - destruct Hkind as [-> | ->]; reflexivity.
Qed.

(** X11. For a caller allowed to read and a month in which the school has
    no voucher, the month listing succeeds with the empty list, whereas the
    get of every valid day of that month fails with the 404. *)
Theorem X11_empty_month db school_id year month token linked_category p :
  datetime.new_date year month 1 = inr p →
  authorized db token "reports:local:read" →
  Forall (λ v, ¬ (dv_parent v = p ∧ dv_schoolId v = school_id)) (vouchers db) →
  result_of (handle (get_disbursement_vouchers_for_month
                       school_id year month token linked_category) db)
  = inr []
  ∧ ∀ date voucher_date,
      datetime.new_date year month date = inr voucher_date →
      result_of (handle (get_disbursement_voucher
                           school_id year month date token) db)
      = inl (HTTPException HTTP_404_NOT_FOUND
               "Disbursement voucher not found.").
Proof.
  intros Hp Hr Hnone. split.
  - rewrite (list_run _ _ _ _ _ _ _ Hr Hp). unfold result_of. cbn [fst].
    rewrite filter_none; [reflexivity|].
    eapply Forall_impl; [exact Hnone|]. intros v Hv Hm. apply Hv.
    apply matches_month_stmt in Hm as (? & ? & _). auto.
  - intros date voucher_date Hd.
    rewrite (get_run _ _ _ _ _ _ _ _ Hr Hp Hd).
    destruct (find_voucher db p voucher_date school_id) as [[i v]|] eqn:Hfind;
      [|reflexivity].
    apply find_voucher_Some in Hfind as (Hi & Hk1 & _ & Hk3).
    rewrite Forall_forall in Hnone. destruct (Hnone v); [|auto].
    apply list_elem_of_lookup. eauto.
Qed.

(** *** Replacing, not patching *)

(** X12. An upsert replaces, it does not patch.  For a valid date and a
    caller allowed to write, posting a body with only the four required
    fields over a stored voucher returns a response in which every optional
    header field is [None], the three certification flags are false and the
    three child lists are empty, whatever the stored voucher and its
    children held; only the report status is the stored one. *)
Theorem X12_minimal_body_resets db school_id year month date token voucher_date
    body_school body_date modeOfPayment payee :
  datetime.new_date year month date = inr voucher_date →
  authorized db token "reports:local:write" →
  is_Some (find_voucher db (datetime.mkdate year month 1) voucher_date
             school_id) →
  ∃ resp,
    result_of (handle (create_or_update_disbursement_voucher
                         school_id year month date
                         (minimal_request body_school body_date
                            modeOfPayment payee) token) db)
    = inr resp
    ∧ resp_modeOfPayment resp = modeOfPayment
    ∧ resp_payee resp = payee
    ∧ resp_tinOrEmployeeNo resp = None
    ∧ resp_responsibilityCenter resp = None
    ∧ resp_orsbursNo resp = None
    ∧ resp_address resp = None
    ∧ resp_linkedLiquidationCategory resp = None
    ∧ resp_certifiedCashAvailable resp = false
    ∧ resp_certifiedSupportingDocsComplete resp = false
    ∧ resp_certifiedSubjectToDebitAccount resp = false
    ∧ resp_approvedBy resp = None
    ∧ resp_checkNo resp = None
    ∧ resp_bankNameAndAccountNo resp = None
    ∧ resp_adaNo resp = None
    ∧ resp_jevNo resp = None
    ∧ resp_entries resp = []
    ∧ resp_accountingEntries resp = []
    ∧ resp_certifiedBy resp = []
    ∧ resp_reportStatus resp
      = stored_status db (datetime.mkdate year month 1) voucher_date school_id.
Proof.
  intros Hd Hw Hsome.
  pose proof (new_date_first _ _ _ _ Hd) as Hp.
  set (request := minimal_request body_school body_date modeOfPayment payee).
  destruct (upsert_run db school_id year month date request token _ _
              Hw Hp Hd) as (i & v & tr & Hrun & Hfind' & _ & Hcase).
  rewrite Hrun. unfold result_of. cbn [fst].
  eexists. split; [reflexivity|].
  apply find_voucher_Some_key in Hfind' as (_ & Hk).
  destruct (upserted_tables _ _ school_id request db _ Hk (or_introl Hsome))
    as (He & Ha & Hc).
  unfold response_of, make_response.
  cbn [resp_entries resp_accountingEntries resp_certifiedBy
       resp_modeOfPayment resp_payee resp_tinOrEmployeeNo
       resp_responsibilityCenter resp_orsbursNo resp_address
       resp_linkedLiquidationCategory resp_certifiedCashAvailable
       resp_certifiedSupportingDocsComplete
       resp_certifiedSubjectToDebitAccount resp_approvedBy resp_checkNo
       resp_bankNameAndAccountNo resp_adaNo resp_jevNo resp_reportStatus].
  rewrite He, Ha, Hc. unfold stored_status.
  destruct Hsome as [[j v0] Hfind]. rewrite Hfind in *.
  destruct Hcase as (_ & -> & _).
  repeat split.
Qed.

Lemma alter_fixed {T} (f : T → T) (l : list T) i x :
  l !! i = Some x → f x = x → alter f i l = l.
Proof.
  revert i. induction l as [|a l IH]; intros [|i] Hi Hx;
    try discriminate; cbn in *.
  - injection Hi as ->. now rewrite Hx.
  - f_equal. now apply (IH i).
Qed.

Lemma filter_not_replaced {T} (P : T → Prop) `{∀ x, Decision (P x)}
    (old new : list T) :
  Forall P new →
  filter (λ x, ¬ P x) (filter (λ x, ¬ P x) old ++ new)
  = filter (λ x, ¬ P x) old.
Proof.
  intros Hnew. rewrite filter_app.
  rewrite (filter_none (λ x, ¬ P x) new)
    by (eapply Forall_impl; [exact Hnew|]; tauto).
  rewrite app_nil_r, list_filter_filter. apply list_filter_iff. tauto.
Qed.

Lemma filter_not_fresh {T} (P : T → Prop) `{∀ x, Decision (P x)}
    (old new : list T) :
  Forall (λ x, ¬ P x) old → Forall P new →
  filter (λ x, ¬ P x) (old ++ new) = old.
Proof.
  intros Hold Hnew. rewrite filter_app.
  rewrite (filter_none (λ x, ¬ P x) new)
    by (eapply Forall_impl; [exact Hnew|]; tauto).
  rewrite app_nil_r. now apply filter_all.
Qed.

(** Upserting again what was just upserted changes no table. *)
Lemma upserted_idempotent p d n request db :
  no_orphans db →
  upserted p d n request (upserted p d n request db)
  = upserted p d n request db.
Proof.
  intros Hown.
  destruct (find_voucher_upserted p d n request db)
    as (i & v & Hfind' & Hp & Hd & Hn & Hcase).
  pose proof Hfind' as (Hi & Hk)%find_voucher_Some_key.
  destruct (rows_of_request_keyed p d n request
              (update_voucher_fields request v) Hp Hd Hn) as (He & Ha & Hc).
  unfold upserted at 1. rewrite Hfind'.
  rewrite (alter_fixed _ _ _ _ Hi) by reflexivity.
  unfold upserted in *.
  destruct (find_voucher db p d n) as [[j v0]|] eqn:Hfind;
    cbn [vouchers entries accounting_entries certified_by] in *.
  - destruct Hcase as (_ & -> & _).
    pose proof (filter_not_replaced (entry_of v0) (entries db) _ He) as E1.
    pose proof (filter_not_replaced (accounting_entry_of v0)
                  (accounting_entries db) _ Ha) as E2.
    pose proof (filter_not_replaced (certified_by_of v0)
                  (certified_by db) _ Hc) as E3.
    f_equal; [exact (f_equal (λ l, l ++ _) E1)
             |exact (f_equal (λ l, l ++ _) E2)
             |exact (f_equal (λ l, l ++ _) E3)].
  - destruct (fresh_key_no_rows db p d n Hown Hfind) as (Fe & Fa & Fc).
    rewrite (filter_not_fresh (entry_of (update_voucher_fields request v))),
      (filter_not_fresh
         (accounting_entry_of (update_voucher_fields request v))),
      (filter_not_fresh (certified_by_of (update_voucher_fields request v)));
      try assumption; [reflexivity|..];
      eapply Forall_impl; try eassumption; intros x Hx; cbn beta in *;
      rewrite ?entry_of_key, ?accounting_entry_of_key, ?certified_by_of_key,
        Hk; assumption.
Qed.

(** X13. Upserting the same payload a second time changes nothing.  For a
    valid date, a caller allowed to write both times, and a database in
    which every child row belongs to a voucher, the second upsert leaves
    the database exactly as the first left it and returns the same
    response. *)
Theorem X13_upsert_idempotent db school_id year month date request
    token1 token2 voucher_date :
  datetime.new_date year month date = inr voucher_date →
  authorized db token1 "reports:local:write" →
  no_orphans db →
  let first :=
    handle (create_or_update_disbursement_voucher
              school_id year month date request token1) db in
  authorized (database_after first) token2 "reports:local:write" →
  let second :=
    handle (create_or_update_disbursement_voucher
              school_id year month date request token2)
      (database_after first) in
  database_after second = database_after first
  ∧ result_of second = result_of first.
Proof.
  intros Hd Hw1 Hown first Hw2 second. subst second first.
  pose proof (new_date_first _ _ _ _ Hd) as Hp.
  destruct (upsert_run db school_id year month date request token1 _ _
              Hw1 Hp Hd) as (i & v & tr1 & Hrun1 & Hfind1 & _ & _).
  rewrite Hrun1 in *. unfold database_after, result_of in *.
  cbn [fst snd] in *.
  destruct (upsert_run _ school_id year month date request token2 _ _
              Hw2 Hp Hd) as (i2 & v2 & tr2 & Hrun2 & _ & _ & Hcase).
  rewrite Hrun2. cbn [fst snd]. rewrite Hfind1 in Hcase.
  destruct Hcase as (_ & -> & _).
  rewrite (upserted_idempotent _ _ _ _ _ Hown). split; reflexivity.
Qed.

(** X14. The [schoolId] and [date] fields of the body are never read: an
    upsert with any other values in them has the same result, the same
    effect on the database and issues the same operations.  The key comes
    from the path alone. *)
Theorem X14_body_key_is_ignored db school_id year month date request token
    body_school body_date :
  handle (create_or_update_disbursement_voucher school_id year month date
            (with_body_key body_school body_date request) token) db
  = handle (create_or_update_disbursement_voucher school_id year month date
              request token) db.
Proof. reflexivity. Qed.

(** X15. After an upsert the voucher is in its month listing.  For a valid
    date, a caller allowed to write and a reader allowed to read
    afterwards, the listing of (school, year, month) contains the response
    the upsert returned, when no category or the empty one is asked for,
    and when the category asked for is the payload's. *)
Theorem X15_upserted_voucher_is_listed db school_id year month date request
    token token' voucher_date linked_category :
  datetime.new_date year month date = inr voucher_date →
  authorized db token "reports:local:write" →
  let posted :=
    handle (create_or_update_disbursement_voucher
              school_id year month date request token) db in
  authorized (database_after posted) token' "reports:local:read" →
  (truthy linked_category = true →
   req_linkedLiquidationCategory request = linked_category) →
  ∃ resp l,
    result_of posted = inr resp
    ∧ result_of (handle (get_disbursement_vouchers_for_month
                           school_id year month token' linked_category)
                   (database_after posted)) = inr l
    ∧ resp ∈ l.
Proof.
  intros Hd Hw posted Hr Hcat. subst posted.
  pose proof (new_date_first _ _ _ _ Hd) as Hp.
  destruct (upsert_run db school_id year month date request token _ _
              Hw Hp Hd) as (i & v & tr & Hrun & Hfind' & _).
  rewrite Hrun in *. unfold database_after, result_of in *.
  cbn [fst snd] in *.
  rewrite (list_run _ _ _ _ _ _ _ Hr Hp). cbn [fst].
  eexists _, _. split; [reflexivity|]. split; [reflexivity|].
  apply find_voucher_Some in Hfind' as (Hi & Hk1 & _ & Hk3).
  apply list_elem_of_fmap. eexists. split; [reflexivity|].
  apply list_elem_of_filter. split.
  - apply matches_month_stmt. repeat split; try assumption.
    destruct linked_category as [[|a c]|]; [exact I| |exact I].
    cbn. now apply Hcat.
  - apply list_elem_of_lookup. eauto.
Qed.

(** *** Other months, and back from the listing *)

Lemma filter_alter_other {T} (P : T → Prop) `{∀ x, Decision (P x)}
    (f : T → T) (l : list T) i x :
  l !! i = Some x → ¬ P x → ¬ P (f x) →
  filter P (alter f i l) = filter P l.
Proof.
  revert i. induction l as [|a l IH]; intros [|i] Hi Hx Hfx;
    try discriminate; cbn in Hi; cbn [alter list_alter].
  - injection Hi as ->. now rewrite !filter_cons_False.
  - rewrite !filter_cons. now rewrite (IH i Hi Hx Hfx).
Qed.

Lemma listing_upserted_other p d n request db p' n' linked_category :
  (p', n') ≠ (p, n) →
  response_of (upserted p d n request db)
    <$> filter (λ v, matches (month_stmt p' n' linked_category) v = true)
          (vouchers (upserted p d n request db))
  = response_of db
      <$> filter (λ v, matches (month_stmt p' n' linked_category) v = true)
            (vouchers db).
Proof.
  intros Hne.
  assert (∀ w : DisbursementVoucher,
            matches (month_stmt p' n' linked_category) w = true →
            voucher_key w ≠ (p, d, n)) as Hother.
  { intros w (Hp & Hn & _)%matches_month_stmt [= Hp' _ Hn']. congruence. }
  assert (filter (λ v, matches (month_stmt p' n' linked_category) v = true)
            (vouchers (upserted p d n request db))
          = filter (λ v, matches (month_stmt p' n' linked_category) v = true)
              (vouchers db)) as ->.
  { unfold upserted.
    destruct (find_voucher db p d n) as [[i v]|] eqn:Hfind; cbn [vouchers].
    - apply find_voucher_Some_key in Hfind as (Hi & Hk).
      apply (filter_alter_other _ _ _ _ v Hi); intros Hm;
        apply Hother in Hm; apply Hm; [exact Hk|].
      rewrite <- Hk. reflexivity.
    - rewrite filter_app, filter_cons_False, filter_nil, app_nil_r;
        [reflexivity|].
      intros Hm. now apply Hother in Hm. }
  apply list_fmap_ext. intros j w Hw.
  apply response_of_upserted_other, Hother.
  apply list_elem_of_lookup_2 in Hw. now apply list_elem_of_filter in Hw.
Qed.

(** X16. An upsert changes nothing of the listing of any other month or
    school: for a valid date, a caller allowed to write, and a reader
    allowed to read before and after, the month listing of a different
    (school, year, month), with or without a category, returns after the
    upsert what it returned before. *)
Theorem X16_upsert_leaves_other_months db school_id year month date request
    token voucher_date school_id' year' month' token' linked_category p' :
  datetime.new_date year month date = inr voucher_date →
  authorized db token "reports:local:write" →
  datetime.new_date year' month' 1 = inr p' →
  (school_id', year', month') ≠ (school_id, year, month) →
  let posted :=
    handle (create_or_update_disbursement_voucher
              school_id year month date request token) db in
  authorized db token' "reports:local:read" →
  authorized (database_after posted) token' "reports:local:read" →
  result_of (handle (get_disbursement_vouchers_for_month
                       school_id' year' month' token' linked_category)
               (database_after posted))
  = result_of (handle (get_disbursement_vouchers_for_month
                         school_id' year' month' token' linked_category) db).
Proof.
  intros Hd Hw Hp' Hne posted Hr Hr'. subst posted.
  pose proof (new_date_first _ _ _ _ Hd) as Hp.
  destruct (upsert_run db school_id year month date request token _ _
              Hw Hp Hd) as (i & v & tr & Hrun & _).
  rewrite Hrun in *. unfold database_after in *. cbn [fst snd] in *.
  rewrite (list_run _ _ _ _ _ _ _ Hr' Hp'), (list_run _ _ _ _ _ _ _ Hr Hp').
  unfold result_of. cbn [fst]. f_equal.
  apply listing_upserted_other.
  pose proof (new_date_inr _ _ _ _ Hp') as ->. congruence.
Qed.

Lemma unique_keys_same_row db (v v' : DisbursementVoucher) :
  unique_keys db → v ∈ vouchers db → v' ∈ vouchers db →
  voucher_key v = voucher_key v' → v = v'.
Proof.
  intros Huniq (i & Hi)%list_elem_of_lookup (j & Hj)%list_elem_of_lookup Hk.
  assert (i = j) as ->.
  { apply (NoDup_lookup _ i j (voucher_key v) Huniq);
      rewrite list_lookup_fmap; [now rewrite Hi|now rewrite Hj, Hk]. }
  congruence.
Qed.

(** X17. On a voucher table with distinct keys, for a valid date and a
    caller allowed to read, every response of the month listing (with or
    without a category) is what the get of its own date returns. *)
Theorem X17_listed_response_is_got db school_id year month date token
    linked_category voucher_date l resp :
  unique_keys db →
  datetime.new_date year month date = inr voucher_date →
  authorized db token "reports:local:read" →
  result_of (handle (get_disbursement_vouchers_for_month
                       school_id year month token linked_category) db)
  = inr l →
  resp ∈ l →
  resp_date resp = voucher_date →
  result_of (handle (get_disbursement_voucher
                       school_id year month date token) db) = inr resp.
Proof.
  intros Huniq Hd Hr Hl Hin Hdate.
  pose proof (new_date_first _ _ _ _ Hd) as Hp.
  rewrite (list_run _ _ _ _ _ _ _ Hr Hp) in Hl.
  unfold result_of in *. cbn [fst] in Hl. injection Hl as <-.
  apply list_elem_of_fmap in Hin as (v & -> & Hv).
  apply list_elem_of_filter in Hv as ((Hk1 & Hk3 & _)%matches_month_stmt & Hv).
  cbn in Hdate.
  rewrite (get_run _ _ _ _ _ _ _ _ Hr Hp Hd).
  destruct (find_voucher db _ voucher_date school_id) as [[i v']|] eqn:Hfind.
  - apply find_voucher_Some_key in Hfind as (Hi & Hk').
    cbn [fst]. do 2 f_equal. symmetry.
    apply (unique_keys_same_row db v v' Huniq Hv).
    + apply list_elem_of_lookup. eauto.
    + rewrite Hk'. unfold voucher_key. congruence.
  - apply find_voucher_None_key in Hfind. destruct Hfind.
    apply list_elem_of_fmap. exists v. split; [|assumption].
    unfold voucher_key. congruence.
Qed.

(** *** Every reachable database *)

Lemma serve_keeps_invariants c db :
  unique_keys db ∧ no_orphans db →
  unique_keys (serve c db) ∧ no_orphans (serve c db).
Proof.
  intros [Huniq Hown].
  destruct c as [school_id year month date request token
                |school_id year month date token
                |school_id year month token linked_category];
    cbn [serve].
  - destruct (upsert_outcomes db school_id year month date request token)
      as [(e & ->)|(p & d & _ & _ & _ & ->)]; [now split|].
    split; [now apply unique_keys_upserted|now apply no_orphans_upserted].
  - destruct (get_read_only db school_id year month date token) as [-> _].
    now split.
  - destruct (list_read_only db school_id year month token linked_category)
      as [-> _].
    now split.
Qed.

(** X18. Every database that the three routes can produce from empty
    tables, by any sequence of calls with any arguments, tokens and
    bodies, has distinct voucher keys and no child row without a
    voucher. *)
Theorem X18_reachable_databases_are_consistent (calls : list Call) :
  unique_keys (serve_all calls empty_database)
  ∧ no_orphans (serve_all calls empty_database).
Proof.
  unfold serve_all.
  assert (unique_keys empty_database ∧ no_orphans empty_database) as Hinit.
  { split; [apply NoDup_nil_2|apply Forall_nil_2]. }
  revert Hinit. generalize empty_database.
  induction calls as [|c calls IH]; intros db Hinv; [exact Hinv|].
  cbn [foldl]. apply IH. now apply serve_keeps_invariants.
Qed.

End Properties.

(** * The properties on the sample server *)

Lemma C1_upsert_then_get_witness :
  let posted :=
    handle (@create_or_update_disbursement_voucher sample_models sample_auth
              5 2024 3 15 sample_request "admin-token") empty_db in
  (∃ resp0, result_of posted = inr resp0)
  ∧ ∃ resp,
      result_of (handle (@get_disbursement_voucher sample_models sample_auth
                           5 2024 3 15 "viewer-token")
                   (database_after posted)) = inr resp
      ∧ header_of_request sample_request resp
      ∧ resp_parent resp = datetime.mkdate 2024 3 1
      ∧ resp_date resp = datetime.mkdate 2024 3 15
      ∧ resp_schoolId resp = 5
      ∧ resp_reportStatus resp
        = stored_status empty_db (datetime.mkdate 2024 3 1)
            (datetime.mkdate 2024 3 15) 5.
Proof.
  apply (@C1_upsert_then_get sample_models sample_auth empty_db 5 2024 3 15
           sample_request "admin-token" "viewer-token"
           (datetime.mkdate 2024 3 15)).
  - reflexivity.
  - exists "admin". split; reflexivity.
  - exists "viewer". split; reflexivity.
Defined.

Lemma C3_get_found_or_404_witness :
  (result_of (handle (@get_disbursement_voucher sample_models sample_auth
                        5 2024 3 16 "viewer-token") march_db)
   = inl (HTTPException 404 "Disbursement voucher not found."))
  ∧ ∃ v resp,
      v ∈ vouchers march_db
      ∧ has_key (datetime.mkdate 2024 3 1) (datetime.mkdate 2024 3 20) 5 v
      ∧ result_of (handle (@get_disbursement_voucher sample_models sample_auth
                             5 2024 3 20 "viewer-token") march_db)
        = inr resp
      ∧ shows_voucher v resp
      ∧ resp_entries resp
        ≡ₚ entry_fields
             <$> filter (λ e : @DisbursementVoucherEntry sample_models,
                       row_key (EntryRow e)
                              = (datetime.mkdate 2024 3 1,
                                 datetime.mkdate 2024 3 20, 5))
                   (entries march_db)
      ∧ resp_accountingEntries resp
        ≡ₚ accounting_entry_fields
             <$> filter (λ e : @DisbursementVoucherAccountingEntry sample_models,
                       row_key (AccountingEntryRow e)
                              = (datetime.mkdate 2024 3 1,
                                 datetime.mkdate 2024 3 20, 5))
                   (accounting_entries march_db)
      ∧ resp_certifiedBy resp
        ≡ₚ dvc_user
             <$> filter (λ c, row_key (@CertifiedByRow sample_models c)
                              = (datetime.mkdate 2024 3 1,
                                 datetime.mkdate 2024 3 20, 5))
                   (certified_by march_db).
Proof.
  split.
  - refine (proj1 (proj1 (@C3_get_found_or_404 sample_models sample_auth
                            march_db 5 2024 3 16 "viewer-token"
                            (datetime.mkdate 2024 3 16) _ _) _)).
    + reflexivity.
    + exists "viewer". split; reflexivity.
    + apply Forall_forall. repeat constructor; intros (_ & [=] & _).
  - refine (proj2 (@C3_get_found_or_404 sample_models sample_auth
                     march_db 5 2024 3 20 "viewer-token"
                     (datetime.mkdate 2024 3 20) _ _) _).
    + reflexivity.
    + exists "viewer". split; reflexivity.
    + eexists. split; [apply list_elem_of_lookup; exists 1%nat; reflexivity|].
      repeat split.
Defined.

Lemma C2_second_upsert_replaces_children_witness :
  let first :=
    handle (@create_or_update_disbursement_voucher sample_models sample_auth
              5 2024 3 15 sample_request "admin-token") empty_db in
  let second :=
    handle (@create_or_update_disbursement_voucher sample_models sample_auth
              5 2024 3 15 second_request "admin-token")
      (database_after first) in
  let p := datetime.mkdate 2024 3 1 in
  let d := datetime.mkdate 2024 3 15 in
  ∃ i v1 v2,
    find_voucher (database_after first) p d 5 = Some (i, v1)
    ∧ find_voucher (database_after second) p d 5 = Some (i, v2)
    ∧ v2 = update_voucher_fields second_request v1
    ∧ vouchers (database_after second)
      = alter (update_voucher_fields second_request) i
          (vouchers (database_after first))
    ∧ vouchers (database_after first) !! i = Some v1
    ∧ vouchers (database_after second) !! i = Some v2
    ∧ stores_request second_request v2
    ∧ has_key p d 5 v2
    ∧ dv_reportStatus v2 = dv_reportStatus v1
    ∧ length (vouchers (database_after second))
      = length (vouchers (database_after first))
    ∧ (∀ j, j ≠ i →
            vouchers (database_after second) !! j
            = vouchers (database_after first) !! j)
    ∧ (∀ r, r ∈ rows_of_request p d 5 sample_request →
            r ∈ deleted_rows (trace_of second))
    ∧ children (database_after second) v2
      = rows_of_request p d 5 second_request.
Proof.
  apply (@C2_second_upsert_replaces_children sample_models sample_auth
           empty_db 5 2024 3 15 sample_request second_request
           "admin-token" "admin-token" (datetime.mkdate 2024 3 15)).
  - reflexivity.
  - exists "admin". split; reflexivity.
  - exists "admin". split; reflexivity.
Defined.

Lemma C6_status_not_written_witness :
  let posted :=
    handle (@create_or_update_disbursement_voucher sample_models sample_auth
              5 2024 3 15 second_request "admin-token") sample_db in
  let p := datetime.mkdate 2024 3 1 in
  let d := datetime.mkdate 2024 3 15 in
  (∃ resp, result_of posted = inr resp
           ∧ resp_reportStatus resp = stored_status sample_db p d 5)
  ∧ stored_status (database_after posted) p d 5 = stored_status sample_db p d 5
  ∧ dv_reportStatus <$> vouchers (database_after posted)
    = (dv_reportStatus <$> vouchers sample_db)
      ++ match find_voucher sample_db p d 5 with
         | Some _ => []
         | None => [@default_status sample_models]
         end.
Proof.
  apply (@C6_status_not_written sample_models sample_auth sample_db
           5 2024 3 15 second_request "admin-token"
           (datetime.mkdate 2024 3 15)).
  - reflexivity.
  - exists "admin". split; reflexivity.
Defined.

Lemma C9_rows_tagged_with_key_witness :
  let posted :=
    handle (@create_or_update_disbursement_voucher sample_models sample_auth
              5 2024 3 15 sample_request "admin-token") empty_db in
  let p := datetime.mkdate 2024 3 1 in
  let d := datetime.mkdate 2024 3 15 in
  ∃ i v,
    find_voucher (database_after posted) p d 5 = Some (i, v)
    ∧ dv_parent v = datetime.mkdate 2024 3 1
    ∧ dv_date v = datetime.mkdate 2024 3 15
    ∧ dv_schoolId v = 5
    ∧ added_rows (trace_of posted) = rows_of_request p d 5 sample_request
    ∧ Forall (λ r, row_key r = (dv_parent v, dv_date v, dv_schoolId v)
                   ∧ match r with
                     | EntryRow e =>
                         dve_date e
                         = datetime.combine (dv_date v) datetime.new_time
                     | AccountingEntryRow e =>
                         dva_date e
                         = datetime.combine (dv_date v) datetime.new_time
                     | CertifiedByRow c => dvc_date c = dv_date v
                     end)
        (added_rows (trace_of posted)).
Proof.
  apply (@C9_rows_tagged_with_key sample_models sample_auth empty_db
           5 2024 3 15 sample_request "admin-token"
           (datetime.mkdate 2024 3 15)).
  - reflexivity.
  - exists "admin". split; reflexivity.
Defined.

(** C4, as the specification words it, fails for the empty string: the
    listing of March 2024 for school 5 with [linked_category = ""] returns
    the stored voucher, whose linked category is "supplies". *)
Lemma C4_counterexample :
  result_of (handle (@get_disbursement_vouchers_for_month sample_models
                       sample_auth 5 2024 3 "viewer-token" (Some "")) sample_db)
  ≠ inr (response_of sample_db
           <$> filter (listed_as_specified (datetime.mkdate 2024 3 1) 5 (Some ""))
                 (vouchers sample_db)).
Proof. vm_compute. discriminate. Qed.

(** Of the two vouchers of March 2024, the category "travel" selects
    one. *)
Lemma C4_month_listing_witness :
  (datetime.mkdate 2024 3 1 = datetime.mkdate 2024 3 1
   ∧ result_of (handle (@get_disbursement_vouchers_for_month sample_models
                          sample_auth 5 2024 3 "viewer-token" (Some "travel"))
                  march_db)
     = inr (response_of march_db
              <$> filter (listed (datetime.mkdate 2024 3 1) 5 (Some "travel"))
                    (vouchers march_db)))
  ∧ length (vouchers march_db) = 2%nat
  ∧ (dv_linkedLiquidationCategory
       <$> filter (listed (datetime.mkdate 2024 3 1) 5 (Some "travel"))
             (vouchers march_db))
    = [Some "travel"].
Proof.
  split; [|split; reflexivity].
  apply (@C4_month_listing sample_models sample_auth march_db 5 2024 3
           "viewer-token" (Some "travel") (datetime.mkdate 2024 3 1)).
  - reflexivity.
  - exists "viewer". split; reflexivity.
Defined.

(** C5, as the specification words it, fails on 30 February 2024: the
    upsert (and the get) fail, but with no exception answered as 422. *)
Lemma C5_counterexample :
  ¬ (∃ e,
       result_of (handle (@create_or_update_disbursement_voucher sample_models
                            sample_auth 5 2024 2 30 sample_request "admin-token")
                    sample_db) = inl e
       ∧ http_status e = HTTP_422_UNPROCESSABLE_ENTITY)
  ∧ ¬ (∃ e,
         result_of (handle (@get_disbursement_voucher sample_models sample_auth
                              5 2024 2 30 "viewer-token") sample_db) = inl e
         ∧ http_status e = HTTP_422_UNPROCESSABLE_ENTITY).
Proof.
  split; intros (e & He & Hs); vm_compute in He; injection He as <-;
    discriminate Hs.
Qed.

(** 30 February 2024, posted by a caller allowed to write and asked for
    by one allowed to read. *)
Lemma C5_invalid_date_witness :
  let e := ValueError "day is out of range for month" in
  (∃ e',
     handle (@create_or_update_disbursement_voucher sample_models sample_auth
               5 2024 2 30 sample_request "admin-token") sample_db
     = (inl e', sample_db, [])
     ∧ (∀ p, datetime.new_date 2024 2 1 = inr p → e' = e)
     ∧ (∃ msg, e' = ValueError msg ∨ e' = OverflowError msg)
     ∧ (datetime.INT_MIN ≤ 2024 ≤ datetime.INT_MAX →
        datetime.INT_MIN ≤ 2 ≤ datetime.INT_MAX →
        datetime.INT_MIN ≤ 30 ≤ datetime.INT_MAX →
        ∃ msg, e' = ValueError msg)
     ∧ http_status e' = HTTP_500_INTERNAL_SERVER_ERROR)
  ∧ (∃ e',
       handle (@get_disbursement_voucher sample_models sample_auth
                 5 2024 2 30 "viewer-token") sample_db
       = (inl e', sample_db, [])
       ∧ (∀ p, datetime.new_date 2024 2 1 = inr p → e' = e)
       ∧ (∃ msg, e' = ValueError msg ∨ e' = OverflowError msg)
       ∧ (datetime.INT_MIN ≤ 2024 ≤ datetime.INT_MAX →
          datetime.INT_MIN ≤ 2 ≤ datetime.INT_MAX →
          datetime.INT_MIN ≤ 30 ≤ datetime.INT_MAX →
          ∃ msg, e' = ValueError msg)
       ∧ http_status e' = HTTP_500_INTERNAL_SERVER_ERROR).
Proof.
  intros e.
  destruct (@C5_invalid_date sample_models sample_auth sample_db 5 2024 2 30
              sample_request "admin-token" "viewer-token" e eq_refl)
    as [Hpost Hget].
  split.
  - apply Hpost. exists "admin". split; reflexivity.
  - apply Hget. exists "viewer". split; reflexivity.
Defined.

(** "viewer" may read but not write; "guest" may do neither. *)
Lemma C8_turned_away_before_store_witness :
  let denied := HTTPException 403 "Permission denied" in
  handle (@create_or_update_disbursement_voucher sample_models sample_auth
            5 2024 3 15 second_request "viewer-token") sample_db
  = (inl denied, sample_db, [])
  ∧ handle (@get_disbursement_voucher sample_models sample_auth
              5 2024 3 15 "guest-token") sample_db
    = (inl denied, sample_db, [])
  ∧ handle (@get_disbursement_vouchers_for_month sample_models sample_auth
              5 2024 3 "guest-token" None) sample_db
    = (inl denied, sample_db, []).
Proof.
  intros denied. split.
  - refine (proj1 (@C8_turned_away_before_store sample_models sample_auth
                     sample_db 5 2024 3 15 second_request None "viewer-token")
              denied _).
    right. exists "viewer". split; reflexivity.
  - refine (proj2 (@C8_turned_away_before_store sample_models sample_auth
                     sample_db 5 2024 3 15 second_request None "guest-token")
              denied _).
    right. exists "guest". split; reflexivity.
Defined.

Lemma C10_empty_category_is_no_filter_witness :
  result_of (handle (@get_disbursement_vouchers_for_month sample_models
                       sample_auth 5 2024 3 "viewer-token" (Some "")) sample_db)
  = inr (response_of sample_db
           <$> filter (λ v, dv_parent v = datetime.mkdate 2024 3 1
                            ∧ dv_schoolId v = 5)
                 (vouchers sample_db)).
Proof.
  apply (@C10_empty_category_is_no_filter sample_models sample_auth sample_db
           5 2024 3 "viewer-token").
  - reflexivity.
  - exists "viewer". split; reflexivity.
Defined.

Lemma X3_upsert_keeps_keys_unique_witness :
  unique_keys (database_after
                 (handle (@create_or_update_disbursement_voucher sample_models
                            sample_auth 5 2024 3 16 second_request "admin-token")
                    sample_db)).
Proof.
  apply (@X3_upsert_keeps_keys_unique sample_models sample_auth sample_db
           5 2024 3 16 second_request "admin-token").
  vm_compute. repeat constructor. intros H. inversion H.
Defined.

Lemma X4_upsert_keeps_rows_owned_witness :
  no_orphans (database_after
                (handle (@create_or_update_disbursement_voucher sample_models
                           sample_auth 5 2024 3 16 second_request "admin-token")
                   sample_db)).
Proof.
  apply (@X4_upsert_keeps_rows_owned sample_models sample_auth sample_db
           5 2024 3 16 second_request "admin-token").
  apply (bool_decide_unpack _). vm_compute. exact I.
Defined.

Lemma X1_upsert_returns_what_get_returns_witness :
  let posted :=
    handle (@create_or_update_disbursement_voucher sample_models sample_auth
              5 2024 3 15 second_request "admin-token") sample_db in
  (∃ resp, result_of posted = inr resp)
  ∧ result_of (handle (@get_disbursement_voucher sample_models sample_auth
                         5 2024 3 15 "viewer-token") (database_after posted))
    = result_of posted.
Proof.
  apply (@X1_upsert_returns_what_get_returns sample_models sample_auth
           sample_db 5 2024 3 15 second_request "admin-token" "viewer-token"
           (datetime.mkdate 2024 3 15)).
  - reflexivity.
  - exists "admin". split; reflexivity.
  - exists "viewer". split; reflexivity.
Defined.

Lemma X2_upsert_returns_submitted_children_witness :
  ∃ resp,
    result_of (handle (@create_or_update_disbursement_voucher sample_models
                         sample_auth 5 2024 3 15 second_request "admin-token")
                 sample_db)
    = inr resp
    ∧ resp_entries resp ≡ₚ req_entries second_request
    ∧ resp_accountingEntries resp ≡ₚ req_accountingEntries second_request
    ∧ resp_certifiedBy resp ≡ₚ req_certifiedBy second_request.
Proof.
  apply (@X2_upsert_returns_submitted_children sample_models sample_auth
           sample_db 5 2024 3 15 second_request "admin-token"
           (datetime.mkdate 2024 3 15)).
  - reflexivity.
  - exists "admin". split; reflexivity.
  - apply (bool_decide_unpack _). vm_compute. exact I.
Defined.

Lemma X5_upsert_leaves_other_keys_witness :
  let posted :=
    handle (@create_or_update_disbursement_voucher sample_models sample_auth
              5 2024 3 16 second_request "admin-token") sample_db in
  result_of (handle (@get_disbursement_voucher sample_models sample_auth
                       5 2024 3 15 "viewer-token") (database_after posted))
  = result_of (handle (@get_disbursement_voucher sample_models sample_auth
                         5 2024 3 15 "viewer-token") sample_db).
Proof.
  apply (@X5_upsert_leaves_other_keys sample_models sample_auth sample_db
           5 2024 3 16 second_request "admin-token" (datetime.mkdate 2024 3 16)
           5 2024 3 15 "viewer-token" (datetime.mkdate 2024 3 15)).
  - reflexivity.
  - exists "admin". split; reflexivity.
  - reflexivity.
  - discriminate.
  - exists "viewer". split; reflexivity.
  - exists "viewer". split; reflexivity.
Defined.

Lemma X7_upsert_commits_once_witness :
  ∃ before after,
    trace_of (handle (@create_or_update_disbursement_voucher sample_models
                        sample_auth 5 2024 3 15 second_request "admin-token")
                sample_db)
    = before ++ Commit :: after
    ∧ Forall (λ e, is_commit e = false) before
    ∧ Forall (λ e, is_read e = true) after.
Proof.
  apply (@X7_upsert_commits_once sample_models sample_auth sample_db
           5 2024 3 15 second_request "admin-token"
           (datetime.mkdate 2024 3 15)).
  - reflexivity.
  - exists "admin". split; reflexivity.
Defined.

Lemma X8_get_response_is_listed_witness :
  ∃ l,
    result_of (handle (@get_disbursement_vouchers_for_month sample_models
                         sample_auth 5 2024 3 "viewer-token" None) sample_db)
    = inr l
    ∧ response_of sample_db
        (update_voucher_fields sample_request
           (new_DisbursementVoucher (datetime.mkdate 2024 3 1)
              (datetime.mkdate 2024 3 15) 5)) ∈ l.
Proof.
  apply (@X8_get_response_is_listed sample_models sample_auth sample_db
           5 2024 3 15 "viewer-token" (datetime.mkdate 2024 3 15)).
  - reflexivity.
  - exists "viewer". split; reflexivity.
  - reflexivity.
Defined.

(** Of the two responses for March 2024, the category "travel" keeps
    one. *)
Lemma X9_category_listing_is_included_witness :
  ∃ filtered all,
    result_of (handle (@get_disbursement_vouchers_for_month sample_models
                         sample_auth 5 2024 3 "viewer-token" (Some "travel"))
                 march_db)
    = inr filtered
    ∧ result_of (handle (@get_disbursement_vouchers_for_month sample_models
                           sample_auth 5 2024 3 "viewer-token" None)
                   march_db)
      = inr all
    ∧ filtered ⊆+ all.
Proof.
  apply (@X9_category_listing_is_included sample_models sample_auth march_db
           5 2024 3 "viewer-token" (Some "travel") (datetime.mkdate 2024 3 1)).
  - reflexivity.
  - exists "viewer". split; reflexivity.
Defined.

(** Month 13 is refused by the range check. *)
Lemma X10_listing_invalid_month_witness :
  let e := ValueError "month must be in 1..12" in
  handle (@get_disbursement_vouchers_for_month sample_models sample_auth
            5 2024 13 "viewer-token" None) sample_db
  = (inl e, sample_db, [])
  ∧ (datetime.INT_MIN ≤ 2024 ≤ datetime.INT_MAX →
     datetime.INT_MIN ≤ 13 ≤ datetime.INT_MAX →
     ∃ msg, e = ValueError msg)
  ∧ (¬ (datetime.INT_MIN ≤ 2024 ≤ datetime.INT_MAX)
     ∨ ¬ (datetime.INT_MIN ≤ 13 ≤ datetime.INT_MAX) →
     ∃ msg, e = OverflowError msg)
  ∧ http_status e = HTTP_500_INTERNAL_SERVER_ERROR.
Proof.
  apply (@X10_listing_invalid_month sample_models sample_auth sample_db
           5 2024 13 "viewer-token" None).
  - reflexivity.
  - exists "viewer". split; reflexivity.
Defined.

Lemma X11_empty_month_witness :
  result_of (handle (@get_disbursement_vouchers_for_month sample_models
                       sample_auth 5 2024 4 "viewer-token" None) sample_db)
  = inr []
  ∧ ∀ date voucher_date,
      datetime.new_date 2024 4 date = inr voucher_date →
      result_of (handle (@get_disbursement_voucher sample_models sample_auth
                           5 2024 4 date "viewer-token") sample_db)
      = inl (HTTPException HTTP_404_NOT_FOUND
               "Disbursement voucher not found.").
Proof.
  apply (@X11_empty_month sample_models sample_auth sample_db
           5 2024 4 "viewer-token" None (datetime.mkdate 2024 4 1)).
  - reflexivity.
  - exists "viewer". split; reflexivity.
  - repeat constructor. intros [[=] _].
Defined.

Lemma X12_minimal_body_resets_witness :
  ∃ resp,
    result_of (handle (@create_or_update_disbursement_voucher sample_models
                         sample_auth 5 2024 3 15
                         (minimal_request 5 (datetime.mkdate 2024 3 15)
                            "Cash" "John Roe") "admin-token") sample_db)
    = inr resp
    ∧ resp_modeOfPayment resp = "Cash"
    ∧ resp_payee resp = "John Roe"
    ∧ resp_tinOrEmployeeNo resp = None
    ∧ resp_responsibilityCenter resp = None
    ∧ resp_orsbursNo resp = None
    ∧ resp_address resp = None
    ∧ resp_linkedLiquidationCategory resp = None
    ∧ resp_certifiedCashAvailable resp = false
    ∧ resp_certifiedSupportingDocsComplete resp = false
    ∧ resp_certifiedSubjectToDebitAccount resp = false
    ∧ resp_approvedBy resp = None
    ∧ resp_checkNo resp = None
    ∧ resp_bankNameAndAccountNo resp = None
    ∧ resp_adaNo resp = None
    ∧ resp_jevNo resp = None
    ∧ resp_entries resp = []
    ∧ resp_accountingEntries resp = []
    ∧ resp_certifiedBy resp = []
    ∧ resp_reportStatus resp
      = stored_status sample_db (datetime.mkdate 2024 3 1)
          (datetime.mkdate 2024 3 15) 5.
Proof.
  apply (@X12_minimal_body_resets sample_models sample_auth sample_db
           5 2024 3 15 "admin-token" (datetime.mkdate 2024 3 15)
           5 (datetime.mkdate 2024 3 15) "Cash" "John Roe").
  - reflexivity.
  - exists "admin". split; reflexivity.
  - eexists. reflexivity.
Defined.

Lemma X13_upsert_idempotent_witness :
  let first :=
    handle (@create_or_update_disbursement_voucher sample_models sample_auth
              5 2024 3 15 sample_request "admin-token") empty_db in
  let second :=
    handle (@create_or_update_disbursement_voucher sample_models sample_auth
              5 2024 3 15 sample_request "admin-token")
      (database_after first) in
  database_after second = database_after first
  ∧ result_of second = result_of first.
Proof.
  apply (@X13_upsert_idempotent sample_models sample_auth empty_db
           5 2024 3 15 sample_request "admin-token" "admin-token"
           (datetime.mkdate 2024 3 15)).
  - reflexivity.
  - exists "admin". split; reflexivity.
  - constructor.
  - exists "admin". split; reflexivity.
Defined.

Lemma X15_upserted_voucher_is_listed_witness :
  let posted :=
    handle (@create_or_update_disbursement_voucher sample_models sample_auth
              5 2024 3 15 sample_request "admin-token") empty_db in
  ∃ resp l,
    result_of posted = inr resp
    ∧ result_of (handle (@get_disbursement_vouchers_for_month sample_models
                           sample_auth 5 2024 3 "viewer-token"
                           (Some "supplies"))
                   (database_after posted)) = inr l
    ∧ resp ∈ l.
Proof.
  apply (@X15_upserted_voucher_is_listed sample_models sample_auth empty_db
           5 2024 3 15 sample_request "admin-token" "viewer-token"
           (datetime.mkdate 2024 3 15) (Some "supplies")).
  - reflexivity.
  - exists "admin". split; reflexivity.
  - exists "viewer". split; reflexivity.
  - reflexivity.
Defined.

Lemma X16_upsert_leaves_other_months_witness :
  let posted :=
    handle (@create_or_update_disbursement_voucher sample_models sample_auth
              5 2024 4 2 second_request "admin-token") sample_db in
  result_of (handle (@get_disbursement_vouchers_for_month sample_models
                       sample_auth 5 2024 3 "viewer-token" None)
               (database_after posted))
  = result_of (handle (@get_disbursement_vouchers_for_month sample_models
                         sample_auth 5 2024 3 "viewer-token" None) sample_db).
Proof.
  apply (@X16_upsert_leaves_other_months sample_models sample_auth sample_db
           5 2024 4 2 second_request "admin-token" (datetime.mkdate 2024 4 2)
           5 2024 3 "viewer-token" None (datetime.mkdate 2024 3 1)).
  - reflexivity.
  - exists "admin". split; reflexivity.
  - reflexivity.
  - discriminate.
  - exists "viewer". split; reflexivity.
  - exists "viewer". split; reflexivity.
Defined.

Lemma X17_listed_response_is_got_witness :
  let resp :=
    response_of sample_db
      (update_voucher_fields sample_request
         (new_DisbursementVoucher (datetime.mkdate 2024 3 1)
            (datetime.mkdate 2024 3 15) 5)) in
  result_of (handle (@get_disbursement_voucher sample_models sample_auth
                       5 2024 3 15 "viewer-token") sample_db) = inr resp.
Proof.
  intros resp.
  apply (@X17_listed_response_is_got sample_models sample_auth sample_db
           5 2024 3 15 "viewer-token" (Some "supplies")
           (datetime.mkdate 2024 3 15) [resp] resp).
  - apply (bool_decide_unpack _). vm_compute. exact I.
  - reflexivity.
  - exists "viewer". split; reflexivity.
  - reflexivity.
  - apply list_elem_of_singleton. reflexivity.
  - reflexivity.
Defined.
